(** * Node-metrics collection of the metrics agent (kubernetes/nodecollection.go)

    A shallow embedding of the Go file: the node directory
    ([GetReadyNodes], [NodeAddress]), the endpoint mask, the connectivity
    prober ([ensureNodeSource], [testNodeConn]) and the per-cycle fetch
    ([downloadNodeData], [retrieveNodeData]).

    Everything outside the file is an oracle acting on an abstract world
    [W]: the cluster client that lists nodes, the reachability probe
    [util.TestHTTPConnection] and the transport [raw.Client.GetRawEndPoint].
    Each call to an oracle, and each log line, is appended to a trace, so
    that "is never attempted" is a statement about the trace.  The endpoint
    masks are Go maps, hence references: they live in a store indexed by
    locations and a configuration holds locations, not sets. *)

From Stdlib Require Import ZArith String Ascii List Bool Lia.
From stdpp Require Import base option list gmap sets strings pretty functions.


Local Open Scope Z_scope.

(** ** Errors *)

(** A Go [error]: its message, and whether [apierrors.IsConflict] holds of
    it (the only thing [retry.RetryOnConflict] asks of an error). *)
Record error := MkError { Error : string; IsConflict : bool }.

(** [errors.New] and [fmt.Errorf] (with [%s]/[%v] verbs, which do not wrap)
    build plain errors, which are never API conflicts. *)
Definition errors_New (msg : string) : error :=
  {| Error := msg; IsConflict := false |}.

Definition fmt_Errorf (msg : string) : error :=
  {| Error := msg; IsConflict := false |}.

(** [%s] / [%v] of a possibly nil error. *)
Definition fmt_v (e : option error) : string :=
  match e with
  | Some e => Error e
  | None => "<nil>"
  end.

(** [strings.Contains]. *)
Fixpoint strings_Contains (s substr : string) : bool :=
  String.prefix substr s ||
  match s with
  | EmptyString => false
  | String _ s' => strings_Contains s' substr
  end.

(** ** The part of k8s.io/api/core/v1 that the file reads *)

Module v1.

Definition NodeReady : string := "Ready".
Definition NodeInternalIP : string := "InternalIP".
Definition ConditionTrue : string := "True".

Record NodeCondition := { Type_ : string; Status_ : string }.

Record NodeAddress := { AddrType : string; Address : string }.

Record NodeStatus := {
  Conditions : list NodeCondition;
  Addresses : list NodeAddress;
  KubeletEndpoint_Port : Z              (* DaemonEndpoints.KubeletEndpoint.Port, int32 *)
}.

Record Node := {
  Name : string;
  Labels : gmap string string;
  Spec_ProviderID : string;
  Status : NodeStatus
}.

End v1.

(** ** Endpoints and clients *)

(** [Endpoint]: the iota enumeration. *)
Inductive Endpoint :=
| NodeStatsSummaryEndpoint
| NodeContainerEndpoint
| NodeCadvisorEndpoint.

Definition Endpoint_code (e : Endpoint) : nat :=
  match e with
  | NodeStatsSummaryEndpoint => 0
  | NodeContainerEndpoint => 1
  | NodeCadvisorEndpoint => 2
  end.

Definition Endpoint_of_code (n : nat) : Endpoint :=
  match n with
  | O => NodeStatsSummaryEndpoint
  | S O => NodeContainerEndpoint
  | _ => NodeCadvisorEndpoint
  end.

#[global] Instance Endpoint_eq_dec : EqDecision Endpoint.
Proof. solve_decision. Defined.

#[global] Instance Endpoint_countable : Countable Endpoint.
Proof.
  apply (inj_countable' Endpoint_code Endpoint_of_code).
  intros []; reflexivity.
Defined.

Inductive Method := MethodGet | MethodPost.

(** [http.Client], as far as the file sets it: the timeout in seconds and
    the transport's [InsecureSkipVerify]. *)
Record http_Client := { Timeout : Z; InsecureSkipVerify : bool }.

(** [raw.Client] values are only built by [raw.NewClient] or as the zero
    value [raw.Client{}]. *)
Inductive raw_Client :=
| raw_NewClient (h : http_Client) (insecure : bool) (bearerToken : string) (retries : Z)
| raw_Client_zero.

(** An [*os.File], identified by its name. *)
Definition os_File := string.

(** ** The trace *)

(** The log lines of the file, one constructor per call site. *)
Inductive LogEntry :=
| LogNodeNotReady (name : string) (nc : option v1.NodeCondition)
| LogSomeNodesNotReady
| LogFetching (e : Endpoint)
| LogAvailability (e : Endpoint) (available : bool)
| LogFargateNodeFound (name : string)
| LogForceKubeProxy
| LogFargateInCluster.

Inductive Event :=
| EvListNodes
| EvTestHTTPConnection (client : http_Client) (url : string) (method : Method)
    (bearerToken : string) (retries : Z) (verbose : bool)
| EvGetRawEndPoint (c : raw_Client) (method : Method) (sourceName : string)
    (workDir : os_File) (url : string) (body : option string) (verbose : bool)
| EvLog (l : LogEntry).

(** ** Effects *)

(** A reference to a Go map of type [EndpointMask]: [None] is the nil map. *)
Definition EndpointMask := option nat.

Section Model.

Context {W : Type}.

(** What lies outside the process: the world the oracles act on, and
    the trace of what the code asked of it. *)
Record Extern := { world : W; trace : list Event }.

(** The whole state: the outside, and the store of mask maps. *)
Record State := { ext : Extern; masks : nat -> gset Endpoint }.

(** Code that can not reach the masks. *)
Definition Ext (A : Type) : Type := Extern -> A * Extern.

Inductive Res (A : Type) :=
| Ret (a : A)
| Panic (msg : string).
Arguments Ret {A} a.
Arguments Panic {A} msg.

(** Code that reads and writes the masks, and may panic. *)
Definition M (A : Type) : Type := State -> Res A * State.

Definition eret {A} (a : A) : Ext A := fun x => (a, x).

Definition ebind {A B} (m : Ext A) (k : A -> Ext B) : Ext B :=
  fun x => let '(a, x') := m x in k a x'.

Definition ret {A} (a : A) : M A := fun s => (Ret a, s).

Definition bind {A B} (m : M A) (k : A -> M B) : M B :=
  fun s =>
    match m s with
    | (Ret a, s') => k a s'
    | (Panic msg, s') => (Panic msg, s')
    end.

Definition panic {A} (msg : string) : M A := fun s => (Panic msg, s).

Definition lift {A} (m : Ext A) : M A :=
  fun s => let '(a, x') := m (ext s) in (Ret a, {| ext := x'; masks := masks s |}).

(** Append an event to the trace. *)
Definition emit (e : Event) : Ext unit :=
  fun x => (tt, {| world := world x; trace := trace x ++ [e] |}).

Definition log (l : LogEntry) : Ext unit := emit (EvLog l).

(** Run an oracle on the world, recording the call. *)
Definition call {A} (e : Event) (f : W -> A * W) : Ext A :=
  fun x =>
    let '(a, w') := f (world x) in
    (a, {| world := w'; trace := trace x ++ [e] |}).

End Model.

Arguments Extern W : clear implicits.
Arguments State W : clear implicits.
Arguments Ext W A : clear implicits.
Arguments M W A : clear implicits.
Arguments Ret {A} a.
Arguments Panic {A} msg.

#[global] Instance Ext_ret {W} : MRet (Ext W) := fun A a => eret a.
#[global] Instance Ext_bind {W} : MBind (Ext W) := fun A B k m => ebind m k.
#[global] Instance M_ret {W} : MRet (M W) := fun A a => ret a.
#[global] Instance M_bind {W} : MBind (M W) := fun A B k m => bind m k.

(** ** The oracles *)

(** [kubernetes.Interface], as far as the file uses it:
    [CoreV1().Nodes().List(metav1.ListOptions{})]. *)
Record kubernetes_Interface (W : Type) := {
  Nodes_List : W -> (error + list v1.Node) * W
}.
Arguments Nodes_List {W} _ _.

(** The two helpers of the agent's own packages [util] and [raw], whose
    code is outside the file: they are parameters of the development.
    [util_TestHTTPConnection client url method token retries verbose]
    gives the reachability flag and the error (the body it also returns
    is dropped at every call site); [raw_GetRawEndPoint c method source
    workDir url body verbose] gives the error (the other result is
    dropped at every call site). *)
Class Oracles (W : Type) := {
  util_TestHTTPConnection :
    http_Client -> string -> Method -> string -> Z -> bool -> W -> (bool * option error) * W;
  raw_GetRawEndPoint :
    raw_Client -> Method -> string -> os_File -> string -> option string -> bool ->
    W -> option error * W
}.

(** ** Node directory *)

(** [NodeSource]: the interface.  An implementation acts on the outside
    only: it holds no reference to the mask maps. *)
Record NodeSource (W : Type) := {
  GetReadyNodes : Ext W (list v1.Node * option error);
  NodeAddress : v1.Node -> Ext W (string * Z * option error)
}.
Arguments GetReadyNodes {W} _.
Arguments NodeAddress {W} _ _.

Record ClientsetNodeSource (W : Type) := { clientSet : kubernetes_Interface W }.
Arguments clientSet {W} _.

Definition NewClientsetNodeSource {W} (clientSet : kubernetes_Interface W)
  : ClientsetNodeSource W :=
  {| clientSet := clientSet |}.

(** [getNodeCondition]: index and pointer of the first condition of the
    given type, [(-1, nil)] when there is none or the status is nil. *)
Fixpoint getNodeCondition_from (conds : list v1.NodeCondition) (i : Z)
    (conditionType : string) : Z * option v1.NodeCondition :=
  match conds with
  | [] => (-1, None)
  | c :: rest =>
      if String.eqb (v1.Type_ c) conditionType then (i, Some c)
      else getNodeCondition_from rest (i + 1) conditionType
  end.

Definition getNodeCondition (status : option v1.NodeStatus) (conditionType : string)
  : Z * option v1.NodeCondition :=
  match status with
  | None => (-1, None)
  | Some st => getNodeCondition_from (v1.Conditions st) 0 conditionType
  end.

(** The test [i >= 0 && nc.Type == v1.NodeReady] of [GetReadyNodes]; [nc]
    is only dereferenced when [i >= 0], where it is never nil (lemma
    [getNodeCondition_found]). *)
Definition readyTest (i : Z) (nc : option v1.NodeCondition) : bool :=
  (0 <=? i) &&
  match nc with
  | Some c => String.eqb (v1.Type_ c) v1.NodeReady
  | None => false
  end.

(** The [for _, n := range allNodes.Items] loop of [GetReadyNodes]. *)
Fixpoint GetReadyNodes_loop {W} (items readyNodes : list v1.Node) : Ext W (list v1.Node) :=
  match items with
  | [] => mret readyNodes
  | n :: rest =>
      let '(i, nc) := getNodeCondition (Some (v1.Status n)) v1.NodeReady in
      if readyTest i nc then GetReadyNodes_loop rest (readyNodes ++ [n])
      else log (LogNodeNotReady (v1.Name n) nc);;
           GetReadyNodes_loop rest readyNodes
  end.

Definition ClientsetNodeSource_GetReadyNodes {W} (cns : ClientsetNodeSource W)
  : Ext W (list v1.Node * option error) :=
  r ← call EvListNodes (Nodes_List (clientSet cns));
  match r with
  | inl err => mret ([], Some err)
  | inr allNodes =>
      readyNodes ← GetReadyNodes_loop allNodes [];
      if (length readyNodes =? 0)%nat then
        mret ([], Some (fmt_Errorf "there were 0 nodes in a ready state"))
      else
        (if negb (length readyNodes =? length allNodes)%nat
         then log LogSomeNodesNotReady else mret tt);;
        mret (readyNodes, None)
  end.

(** [NodeAddress]: the first address of type InternalIP, with the kubelet
    port. *)
Fixpoint NodeAddress_loop (addrs : list v1.NodeAddress) : option string :=
  match addrs with
  | [] => None
  | addr :: rest =>
      if String.eqb (v1.AddrType addr) v1.NodeInternalIP then Some (v1.Address addr)
      else NodeAddress_loop rest
  end.

Definition ClientsetNodeSource_NodeAddress (node : v1.Node) : string * Z * option error :=
  match NodeAddress_loop (v1.Addresses (v1.Status node)) with
  | Some ip => (ip, v1.KubeletEndpoint_Port (v1.Status node), None)
  | None =>
      (EmptyString, 0, Some (fmt_Errorf
         ("Could not find internal IP address for node " +:+ v1.Name node +:+ " ")))
  end.

(** [ClientsetNodeSource] implements [NodeSource]. *)
Definition ClientsetNodeSource_NodeSource {W} (cns : ClientsetNodeSource W) : NodeSource W :=
  {| GetReadyNodes := ClientsetNodeSource_GetReadyNodes cns;
     NodeAddress := fun node => mret (ClientsetNodeSource_NodeAddress node) |}.

(** ** Endpoint availability mask *)

(** [SetAvailable]: a write to the nil map panics, [delete] on it does
    nothing. *)
Definition SetAvailable {W} (m : EndpointMask) (endpoint : Endpoint) (available : bool)
  : M W unit :=
  fun s =>
    match m with
    | Some l =>
        let set := masks s l in
        let set' := if available then {[endpoint]} ∪ set else set ∖ {[endpoint]} in
        (Ret tt, {| ext := ext s; masks := <[l := set']> (masks s) |})
    | None =>
        if available then (Panic "assignment to entry in nil map", s) else (Ret tt, s)
    end.

(** [Available]: membership; reading the nil map gives false. *)
Definition Available {W} (m : EndpointMask) (endpoint : Endpoint) : M W bool :=
  fun s =>
    match m with
    | Some l => (Ret (bool_decide (endpoint ∈ masks s l)), s)
    | None => (Ret false, s)
    end.

(** ** Endpoint address builders *)

Class nodeAPI (T : Type) := {
  statsSummary : T -> string;
  statsContainer : T -> string;
  mCAdvisor : T -> string
}.

Record proxyAPI := { clusterHostURL : string; proxy_nodeName : string }.

#[global] Instance proxyAPI_nodeAPI : nodeAPI proxyAPI := {|
  statsSummary p :=
    clusterHostURL p +:+ "/api/v1/nodes/" +:+ proxy_nodeName p +:+ "/proxy/stats/summary";
  statsContainer p :=
    clusterHostURL p +:+ "/api/v1/nodes/" +:+ proxy_nodeName p +:+ "/proxy/stats/container/";
  mCAdvisor p :=
    clusterHostURL p +:+ "/api/v1/nodes/" +:+ proxy_nodeName p +:+ "/proxy/metrics/cadvisor"
|}.

Definition proxyEndpoints (clusterHostURL nodeName : string) : proxyAPI :=
  {| clusterHostURL := clusterHostURL; proxy_nodeName := nodeName |}.

Record directNode := { ip : string; port : Z (* int64 *) }.

#[global] Instance directNode_nodeAPI : nodeAPI directNode := {|
  statsSummary d := "https://" +:+ ip d +:+ ":" +:+ pretty (port d) +:+ "/stats/summary";
  statsContainer d := "https://" +:+ ip d +:+ ":" +:+ pretty (port d) +:+ "/stats/container/";
  mCAdvisor d := "https://" +:+ ip d +:+ ":" +:+ pretty (port d) +:+ "/metrics/cadvisor"
|}.

(** [int64(port)] of an [int32] is the same integer. *)
Definition directNodeEndpoints (ip : string) (port : Z) : directNode :=
  {| ip := ip; port := port |}.

(** ** Source naming *)

Record sourceName := { prefix : string; nodeName : string }.

Definition summary (s : sourceName) : string := prefix s +:+ "-summary-" +:+ nodeName s.
Definition container (s : sourceName) : string := prefix s +:+ "-container-" +:+ nodeName s.
Definition cadvisorMetrics (s : sourceName) : string :=
  prefix s +:+ "-cadvisor_metrics-" +:+ nodeName s.

(** ** Session configuration *)

(** Modelled from the spec: the constants [direct], [proxy] and
    [unreachable] are declared in another file of the package; the spec
    gives the connection mode as the closed enumeration
    {Direct, Proxy, Unreachable}. *)
Inductive Connection := direct | proxy | unreachable.

#[global] Instance Connection_eq_dec : EqDecision Connection.
Proof. solve_decision. Defined.

(** Modelled from the spec: the struct [KubeAgentConfig] is declared in
    another file of the package; these are the fields that
    nodecollection.go reads or writes, with the types their uses there
    require (the session configuration of the spec, with the two masks
    and the connection mode). *)
Record KubeAgentConfig (W : Type) := {
  ClusterHostURL : string;
  BearerToken : string;
  CollectionRetryLimit : Z;
  ForceKubeProxy : bool;
  RetrieveStatsContainer : bool;
  RetrieveNodeSummaries : bool;
  Clientset : kubernetes_Interface W;
  HTTPClient : http_Client;
  NodeClient : raw_Client;
  InClusterClient : raw_Client;
  DirectEndpointMask : EndpointMask;
  ProxyEndpointMask : EndpointMask;
  nodeRetrievalMethod : Connection
}.
Arguments ClusterHostURL {W} _.
Arguments BearerToken {W} _.
Arguments CollectionRetryLimit {W} _.
Arguments ForceKubeProxy {W} _.
Arguments RetrieveStatsContainer {W} _.
Arguments RetrieveNodeSummaries {W} _.
Arguments Clientset {W} _.
Arguments HTTPClient {W} _.
Arguments NodeClient {W} _.
Arguments InClusterClient {W} _.
Arguments DirectEndpointMask {W} _.
Arguments ProxyEndpointMask {W} _.
Arguments nodeRetrievalMethod {W} _.

(** Field assignments [config.f = v] on the local copy of the configuration. *)
Definition set_NodeClient {W} (c : raw_Client) (config : KubeAgentConfig W) : KubeAgentConfig W :=
  {| ClusterHostURL := ClusterHostURL config; BearerToken := BearerToken config;
     CollectionRetryLimit := CollectionRetryLimit config;
     ForceKubeProxy := ForceKubeProxy config;
     RetrieveStatsContainer := RetrieveStatsContainer config;
     RetrieveNodeSummaries := RetrieveNodeSummaries config;
     Clientset := Clientset config; HTTPClient := HTTPClient config;
     NodeClient := c; InClusterClient := InClusterClient config;
     DirectEndpointMask := DirectEndpointMask config;
     ProxyEndpointMask := ProxyEndpointMask config;
     nodeRetrievalMethod := nodeRetrievalMethod config |}.

Definition set_nodeRetrievalMethod {W} (m : Connection) (config : KubeAgentConfig W)
  : KubeAgentConfig W :=
  {| ClusterHostURL := ClusterHostURL config; BearerToken := BearerToken config;
     CollectionRetryLimit := CollectionRetryLimit config;
     ForceKubeProxy := ForceKubeProxy config;
     RetrieveStatsContainer := RetrieveStatsContainer config;
     RetrieveNodeSummaries := RetrieveNodeSummaries config;
     Clientset := Clientset config; HTTPClient := HTTPClient config;
     NodeClient := NodeClient config; InClusterClient := InClusterClient config;
     DirectEndpointMask := DirectEndpointMask config;
     ProxyEndpointMask := ProxyEndpointMask config;
     nodeRetrievalMethod := m |}.

Definition set_RetrieveNodeSummaries {W} (b : bool) (config : KubeAgentConfig W)
  : KubeAgentConfig W :=
  {| ClusterHostURL := ClusterHostURL config; BearerToken := BearerToken config;
     CollectionRetryLimit := CollectionRetryLimit config;
     ForceKubeProxy := ForceKubeProxy config;
     RetrieveStatsContainer := RetrieveStatsContainer config;
     RetrieveNodeSummaries := b;
     Clientset := Clientset config; HTTPClient := HTTPClient config;
     NodeClient := NodeClient config; InClusterClient := InClusterClient config;
     DirectEndpointMask := DirectEndpointMask config;
     ProxyEndpointMask := ProxyEndpointMask config;
     nodeRetrievalMethod := nodeRetrievalMethod config |}.

(** ** Single-node endpoint fetch *)

Record nodeFetchData := {
  nd_nodeName : string;
  nd_prefix : string;
  nd_workDir : os_File;
  nd_ClusterHostURL : string;
  nd_containersRequest : string
}.

(** [c.GetRawEndPoint(...)]: the transport oracle, recorded in the trace. *)
Definition GetRawEndPoint `{Oracles W} (c : raw_Client) (method : Method)
    (sourceName : string) (workDir : os_File) (url : string) (body : option string)
    (verbose : bool) : Ext W (option error) :=
  call (EvGetRawEndPoint c method sourceName workDir url body verbose)
       (raw_GetRawEndPoint c method sourceName workDir url body verbose).

(** [util.TestHTTPConnection(...)]: the probe oracle, recorded in the trace. *)
Definition TestHTTPConnection `{Oracles W} (client : http_Client) (url : string)
    (method : Method) (bearerToken : string) (retries : Z) (verbose : bool)
  : Ext W (bool * option error) :=
  call (EvTestHTTPConnection client url method bearerToken retries verbose)
       (util_TestHTTPConnection client url method bearerToken retries verbose).

Definition retrieveNodeData `{Oracles W} `{nodeAPI T} (nd : nodeFetchData)
    (c : raw_Client) (mask : EndpointMask) (api : T) : M W (option error) :=
  let source := {| prefix := nd_prefix nd; nodeName := nd_nodeName nd |} in
  a ← Available mask NodeStatsSummaryEndpoint;
  err ← (if a : bool then
           lift (log (LogFetching NodeStatsSummaryEndpoint));;
           lift (GetRawEndPoint c MethodGet (summary source) (nd_workDir nd)
                   (statsSummary api) None true)
         else mret None);
  match err with
  | Some e => mret (Some e)
  | None =>
      a ← Available mask NodeCadvisorEndpoint;
      err ← (if a : bool then
               lift (log (LogFetching NodeCadvisorEndpoint));;
               lift (GetRawEndPoint c MethodGet (cadvisorMetrics source) (nd_workDir nd)
                       (mCAdvisor api) None true)
             else mret None);
      match err with
      | Some e => mret (Some e)
      | None =>
          a ← Available mask NodeContainerEndpoint;
          err ← (if a : bool then
                   lift (log (LogFetching NodeContainerEndpoint));;
                   lift (GetRawEndPoint c MethodPost (container source) (nd_workDir nd)
                           (statsContainer api) (Some (nd_containersRequest nd)) true)
                 else mret None);
          mret err
      end
  end.

(** [directNodeFetch]: resolve the address, then fetch with the node
    client and the direct mask. *)
Definition directNodeFetch `{Oracles W} (nodeSource : NodeSource W)
    (config : KubeAgentConfig W) (n : v1.Node) (nd : nodeFetchData) : M W (option error) :=
  '(ip, port, err) ← lift (NodeAddress nodeSource n);
  match err with
  | Some e => mret (Some (fmt_Errorf ("problem getting node address: " +:+ Error e)))
  | None =>
      let d := directNodeEndpoints ip port in
      retrieveNodeData nd (NodeClient config) (DirectEndpointMask config) d
  end.

(** [proxyNodeFetch]: fetch through the API server with the in-cluster
    client and the proxy mask. *)
Definition proxyNodeFetch `{Oracles W} (nd : nodeFetchData) (config : KubeAgentConfig W)
  : M W (option error) :=
  let proxy := proxyEndpoints (ClusterHostURL config) (nd_nodeName nd) in
  retrieveNodeData nd (InClusterClient config) (ProxyEndpointMask config) proxy.

(** ** Fleet heterogeneity policy *)

(** [isFargateNode]: a missing label reads as the empty string. *)
Definition isFargateNode {W} (n : v1.Node) : Ext W bool :=
  let v := default EmptyString (v1.Labels n !! "eks.amazonaws.com/compute-type") in
  if String.eqb v "fargate" then
    log (LogFargateNodeFound (v1.Name n));;
    mret true
  else mret false.

(** The [for _, n := range nodes] loop of [allowDirectConnect]. *)
Fixpoint allowDirectConnect_loop {W} (nodes : list v1.Node) : Ext W bool :=
  match nodes with
  | [] => mret true
  | n :: rest =>
      f ← isFargateNode n;
      if f : bool then
        log LogFargateInCluster;;
        mret false
      else allowDirectConnect_loop rest
  end.

Definition allowDirectConnect {W} (config : KubeAgentConfig W) (nodes : list v1.Node)
  : Ext W bool :=
  if ForceKubeProxy config then
    log LogForceKubeProxy;;
    mret false
  else allowDirectConnect_loop nodes.

(** ** Listing with retry *)

(** [wait.Backoff], as far as attempts are concerned. *)
Record Backoff := { Steps : nat }.

(** [retry.DefaultBackoff] of k8s.io/client-go/util/retry. *)
Definition DefaultBackoff : Backoff := {| Steps := 4 |}.

(** [retry.RetryOnConflict backoff fn] with the closure of
    [downloadNodeData], which stores the listing in [nodes]: [fn] is run
    again while it fails with a conflict and steps remain; when the steps
    run out the last conflict is the error.  [nodes] holds what the last
    attempt stored.  Sleeping between attempts is not modelled. *)
Fixpoint RetryOnConflict_loop {W} (steps : nat) (fn : Ext W (list v1.Node * option error))
    (nodes : list v1.Node) (lastConflictErr : option error)
  : Ext W (list v1.Node * option error) :=
  match steps with
  | O => mret (nodes, lastConflictErr)
  | S steps' =>
      '(nodes', err) ← fn;
      match err with
      | None => mret (nodes', None)
      | Some e =>
          if IsConflict e then RetryOnConflict_loop steps' fn nodes' (Some e)
          else mret (nodes', Some e)
      end
  end.

Definition RetryOnConflict {W} (backoff : Backoff) (fn : Ext W (list v1.Node * option error))
  : Ext W (list v1.Node * option error) :=
  RetryOnConflict_loop (Steps backoff) fn [] None.

(** ** Cyclical fetch orchestrator *)

Definition dquote : string := String "034"%char EmptyString.

(** [buildContainersRequest]: [json.Marshal] of
    [cadvisorStatsRequest{Subcontainers: true, NumStats: 1}]; the empty
    [ContainerName] is omitted, and marshalling this value can not fail. *)
Definition buildContainersRequest : string * option error :=
  ("{" +:+ dquote +:+ "num_stats" +:+ dquote +:+ ":1," +:+
   dquote +:+ "subcontainers" +:+ dquote +:+ ":true}", None).

(** The body of the [for _, n := range nodes] loop of [downloadNodeData],
    on the failure map built so far. *)
Definition downloadNodeData_node `{Oracles W} (prefix : string) (config : KubeAgentConfig W)
    (workDir : os_File) (nodeSource : NodeSource W) (containersRequest : string)
    (failedNodeList : gmap string error) (n : v1.Node) : M W (gmap string error) :=
  let failedNodeList :=
    if String.eqb (v1.Spec_ProviderID n) EmptyString then
      <[v1.Name n := errors_New ("Provider ID for node does not exist. " +:+
          "If this condition persists it will cause inconsistent cluster allocation")]>
        failedNodeList
    else failedNodeList in
  let nd := {| nd_nodeName := v1.Name n; nd_prefix := prefix; nd_workDir := workDir;
               nd_ClusterHostURL := ClusterHostURL config;
               nd_containersRequest := containersRequest |} in
  (* retrieve node summary via proxy *)
  let viaProxy (failedNodeList : gmap string error) : M W (gmap string error) :=
    err ← proxyNodeFetch nd config;
    match err with
    | Some e =>
        mret (<[v1.Name n := fmt_Errorf ("proxy connect failed: " +:+ Error e)]> failedNodeList)
    | None => mret failedNodeList
    end in
  tryDirect ← (if decide (nodeRetrievalMethod config = direct) then
                 f ← lift (isFargateNode n);
                 mret (negb f)
               else mret false);
  if tryDirect : bool then
    err ← directNodeFetch nodeSource config n nd;
    match err with
    | None => mret failedNodeList
    | Some e =>
        viaProxy (<[v1.Name n := fmt_Errorf
                     ("direct connect failed (will attempt proxy): " +:+ Error e)]>
                    failedNodeList)
    end
  else viaProxy failedNodeList.

Fixpoint downloadNodeData_loop `{Oracles W} (prefix : string) (config : KubeAgentConfig W)
    (workDir : os_File) (nodeSource : NodeSource W) (containersRequest : string)
    (nodes : list v1.Node) (failedNodeList : gmap string error) : M W (gmap string error) :=
  match nodes with
  | [] => mret failedNodeList
  | n :: rest =>
      failedNodeList' ← downloadNodeData_node prefix config workDir nodeSource
                          containersRequest failedNodeList n;
      downloadNodeData_loop prefix config workDir nodeSource containersRequest rest
        failedNodeList'
  end.

(** [downloadNodeData]: the failure map ([None] is the nil map) and the
    error. *)
Definition downloadNodeData `{Oracles W} (prefix : string) (config : KubeAgentConfig W)
    (workDir : os_File) (nodeSource : NodeSource W)
  : M W (option (gmap string error) * option error) :=
  '(nodes, err) ← lift (RetryOnConflict DefaultBackoff (GetReadyNodes nodeSource));
  match err with
  | Some e =>
      mret (None, Some (fmt_Errorf
        ("cloudability metric agent is unable to get a list of nodes: " +:+ Error e)))
  | None =>
      let '(containersRequest, err) := buildContainersRequest in
      match err with
      | Some e =>
          mret (None, Some (fmt_Errorf
            ("error occurred requesting container statistics: " +:+ Error e)))
      | None =>
          failedNodeList ← downloadNodeData_loop prefix config workDir nodeSource
                             containersRequest nodes ∅;
          mret (Some failedNodeList, None)
      end
  end.

(** ** Connectivity prober *)

Definition testNodeConn `{Oracles W} (config : KubeAgentConfig W) (client : http_Client)
    (mask : EndpointMask) (nodeStatSum containerStats cadvisorMetrics : string)
  : M W (bool * option error) :=
  '(ns, err) ← lift (TestHTTPConnection client nodeStatSum MethodGet
                       (BearerToken config) 0 false);
  match err with
  | Some e => mret (false, Some e)
  | None =>
      lift (log (LogAvailability NodeStatsSummaryEndpoint ns));;
      SetAvailable mask NodeStatsSummaryEndpoint ns;;
      '(cm, err) ← lift (TestHTTPConnection client cadvisorMetrics MethodGet
                           (BearerToken config) 0 false);
      match err with
      | Some e => mret (false, Some e)
      | None =>
          lift (log (LogAvailability NodeCadvisorEndpoint cm));;
          SetAvailable mask NodeCadvisorEndpoint cm;;
          if RetrieveStatsContainer config then
            '(cs, err) ← lift (TestHTTPConnection client containerStats MethodPost
                                 (BearerToken config) 0 false);
            match err with
            | Some e => mret (false, Some e)
            | None =>
                lift (log (LogAvailability NodeContainerEndpoint cs));;
                SetAvailable mask NodeContainerEndpoint cs;;
                mret (ns && (cm || cs), None)
            end
          else
            let cs := false in
            mret (ns && (cm || cs), None)
      end
  end.

(** The client built at the start of [ensureNodeSource]: thirty seconds
    of timeout, certificates not verified. *)
Definition nodeHTTPClient : http_Client := {| Timeout := 30; InsecureSkipVerify := true |}.

Definition ensureNodeSource `{Oracles W} (config : KubeAgentConfig W)
  : M W (KubeAgentConfig W * option error) :=
  let clientSetNodeSource := NewClientsetNodeSource (Clientset config) in
  let nodeClient :=
    raw_NewClient nodeHTTPClient true (BearerToken config) (CollectionRetryLimit config) in
  let config := set_NodeClient nodeClient config in
  '(nodes, err) ← lift (ClientsetNodeSource_GetReadyNodes clientSetNodeSource);
  match err with
  | Some e => mret (config, Some (fmt_Errorf ("error retrieving nodes: " +:+ Error e)))
  | None =>
      match nodes with
      | [] => panic "index out of range [0] with length 0"
      | firstNode :: _ =>
          let '(ip, port, err) := ClientsetNodeSource_NodeAddress firstNode in
          match err with
          | Some e =>
              mret (config, Some (fmt_Errorf ("error retrieving node addresses: " +:+ Error e)))
          | None =>
              (* test node connectivity via kube-proxy *)
              let viaProxy : M W (KubeAgentConfig W * option error) :=
                let p := proxyEndpoints (ClusterHostURL config) (v1.Name firstNode) in
                '(success, err) ← testNodeConn config (HTTPClient config)
                                    (ProxyEndpointMask config) (statsSummary p)
                                    (statsContainer p) (mCAdvisor p);
                match err with
                | Some e => mret (config, Some e)
                | None =>
                    if success : bool then
                      let config := set_NodeClient raw_Client_zero config in
                      let config := set_nodeRetrievalMethod proxy config in
                      mret (config, None)
                    else
                      let config := set_nodeRetrievalMethod unreachable config in
                      let config := set_RetrieveNodeSummaries false config in
                      mret (config, Some (fmt_Errorf
                        ("unable to retrieve node metrics. Please verify RBAC roles: "
                         +:+ fmt_v err)))
                end in
              allow ← lift (allowDirectConnect config nodes);
              if allow : bool then
                (* test node direct connectivity *)
                let d := directNodeEndpoints ip port in
                '(success, err) ← testNodeConn config nodeHTTPClient
                                    (DirectEndpointMask config) (statsSummary d)
                                    (statsContainer d) (mCAdvisor d);
                match err with
                | Some e => mret (config, Some e)
                | None =>
                    if success : bool then
                      let config := set_nodeRetrievalMethod direct config in
                      mret (config, None)
                    else viaProxy
                end
              else viaProxy
          end
      end
  end.

(** ** Notions used in the statements *)

(** The spec's readiness: a condition of type Ready is present and its
    status is True. *)
Definition ReadyConditionTrue (n : v1.Node) : Prop :=
  ∃ c, c ∈ v1.Conditions (v1.Status n) ∧
       v1.Type_ c = v1.NodeReady ∧ v1.Status_ c = v1.ConditionTrue.

(** What the loop of [GetReadyNodes] tests on a node. *)
Definition retained (n : v1.Node) : bool :=
  let '(i, nc) := getNodeCondition (Some (v1.Status n)) v1.NodeReady in
  readyTest i nc.

(** The node carries the label eks.amazonaws.com/compute-type = fargate. *)
Definition FargateLabelled (n : v1.Node) : Prop :=
  v1.Labels n !! "eks.amazonaws.com/compute-type" = Some "fargate".

Definition fargateb (n : v1.Node) : bool :=
  String.eqb (default EmptyString (v1.Labels n !! "eks.amazonaws.com/compute-type")) "fargate".

(** The events that reach out to a node or to the API server. *)
Definition isFetch (e : Event) : bool :=
  match e with
  | EvGetRawEndPoint _ _ _ _ _ _ _ => true
  | _ => false
  end.

(** ** The requests of a fetch, and the fetch in the spec's words *)

(** The event that the request for an endpoint leaves in the trace. *)
Definition endpointEvent `{nodeAPI T} (nd : nodeFetchData) (c : raw_Client)
    (api : T) (e : Endpoint) : Event :=
  let source := {| prefix := nd_prefix nd; nodeName := nd_nodeName nd |} in
  match e with
  | NodeStatsSummaryEndpoint =>
      EvGetRawEndPoint c MethodGet (summary source) (nd_workDir nd) (statsSummary api)
        None true
  | NodeCadvisorEndpoint =>
      EvGetRawEndPoint c MethodGet (cadvisorMetrics source) (nd_workDir nd) (mCAdvisor api)
        None true
  | NodeContainerEndpoint =>
      EvGetRawEndPoint c MethodPost (container source) (nd_workDir nd) (statsContainer api)
        (Some (nd_containersRequest nd)) true
  end.

(** What the transport answers to that request, in a given world. *)
Definition endpointAnswer `{Oracles W} `{nodeAPI T} (nd : nodeFetchData) (c : raw_Client)
    (api : T) (e : Endpoint) : W -> option error * W :=
  let source := {| prefix := nd_prefix nd; nodeName := nd_nodeName nd |} in
  match e with
  | NodeStatsSummaryEndpoint =>
      raw_GetRawEndPoint c MethodGet (summary source) (nd_workDir nd) (statsSummary api)
        None true
  | NodeCadvisorEndpoint =>
      raw_GetRawEndPoint c MethodGet (cadvisorMetrics source) (nd_workDir nd) (mCAdvisor api)
        None true
  | NodeContainerEndpoint =>
      raw_GetRawEndPoint c MethodPost (container source) (nd_workDir nd) (statsContainer api)
        (Some (nd_containersRequest nd)) true
  end.

(** The request that [retrieveNodeData] issues for an endpoint. *)
Definition endpointRequest `{Oracles W} `{nodeAPI T} (nd : nodeFetchData) (c : raw_Client)
    (api : T) (e : Endpoint) : Ext W (option error) :=
  call (endpointEvent nd c api e) (endpointAnswer nd c api e).

(** Following the spec's words (single-node endpoint fetch): for each
    endpoint kind of the list in order, if the mask marks it available
    issue its request; the first error aborts the remaining endpoints and
    is returned. *)
Fixpoint visitEndpoints `{Oracles W} `{nodeAPI T} (nd : nodeFetchData) (c : raw_Client)
    (mask : EndpointMask) (api : T) (es : list Endpoint) : M W (option error) :=
  match es with
  | [] => mret None
  | e :: rest =>
      a ← Available mask e;
      if a : bool then
        lift (log (LogFetching e));;
        err ← lift (endpointRequest nd c api e);
        match err with
        | Some err => mret (Some err)
        | None => visitEndpoints nd c mask api rest
        end
      else visitEndpoints nd c mask api rest
  end.

(** The trace of a fetch that attempts the given endpoints. *)
Definition attemptEvents `{nodeAPI T} (nd : nodeFetchData) (c : raw_Client) (api : T)
    (attempted : list Endpoint) : list Event :=
  flat_map (λ e, [EvLog (LogFetching e); endpointEvent nd c api e]) attempted.

(** The fixed order of the fetch. *)
Definition fetchOrder : list Endpoint :=
  [NodeStatsSummaryEndpoint; NodeCadvisorEndpoint; NodeContainerEndpoint].

(** The mask marks the endpoint available in the state. *)
Definition availableIn {W} (s : State W) (mask : EndpointMask) (e : Endpoint) : bool :=
  match mask with
  | Some l => bool_decide (e ∈ masks s l)
  | None => false
  end.

(** The failure map after the provider-ID check of [downloadNodeData]. *)
Definition providerNote (failedNodeList : gmap string error) (n : v1.Node)
  : gmap string error :=
  if String.eqb (v1.Spec_ProviderID n) EmptyString then
    <[v1.Name n := errors_New ("Provider ID for node does not exist. " +:+
        "If this condition persists it will cause inconsistent cluster allocation")]>
      failedNodeList
  else failedNodeList.

(** The fetch context that [downloadNodeData] builds for a node. *)
Definition fetchContext {W} (prefix : string) (config : KubeAgentConfig W)
    (workDir : os_File) (containersRequest : string) (n : v1.Node) : nodeFetchData :=
  {| nd_nodeName := v1.Name n; nd_prefix := prefix; nd_workDir := workDir;
     nd_ClusterHostURL := ClusterHostURL config;
     nd_containersRequest := containersRequest |}.

(** The two notes that a failed fetch leaves in the failure map. *)
Definition directFailedNote (e : error) : error :=
  fmt_Errorf ("direct connect failed (will attempt proxy): " +:+ Error e).

Definition proxyFailedNote (e : error) : error :=
  fmt_Errorf ("proxy connect failed: " +:+ Error e).

(** What the probe answers for a url of a candidate, in a given world,
    and the event that the probe leaves in the trace. *)
Definition probeAnswer `{Oracles W} (config : KubeAgentConfig W) (client : http_Client)
    (url : string) (method : Method) : W -> (bool * option error) * W :=
  util_TestHTTPConnection client url method (BearerToken config) 0 false.

Definition probeEvent {W} (config : KubeAgentConfig W) (client : http_Client)
    (url : string) (method : Method) : Event :=
  EvTestHTTPConnection client url method (BearerToken config) 0 false.

(** The log line of [GetReadyNodes] for a node that is not retained. *)
Definition notReadyLog (n : v1.Node) : Event :=
  EvLog (LogNodeNotReady (v1.Name n)
           (snd (getNodeCondition (Some (v1.Status n)) v1.NodeReady))).

(** One more entry under the node's name, or the same map. *)
Definition extendsAt (name : string) (fl fl' : gmap string error) : Prop :=
  (∀ k, is_Some (fl !! k) → is_Some (fl' !! k)) ∧
  (∀ k, k ≠ name → fl' !! k = fl !! k).

(** The error of [downloadNodeData] when the listing fails. *)
Definition listingFailed (e : error) : error :=
  fmt_Errorf ("cloudability metric agent is unable to get a list of nodes: " +:+ Error e).

(** ** Fixtures: a small cluster and its oracles, for closed examples *)

Module Fixture.

Definition mkNode (name : string) (labels : gmap string string) (providerID : string)
    (conds : list v1.NodeCondition) (addrs : list v1.NodeAddress) : v1.Node :=
  {| v1.Name := name; v1.Labels := labels; v1.Spec_ProviderID := providerID;
     v1.Status := {| v1.Conditions := conds; v1.Addresses := addrs;
                     v1.KubeletEndpoint_Port := 10250 |} |}.

Definition ready (status : string) : v1.NodeCondition :=
  {| v1.Type_ := "Ready"; v1.Status_ := status |}.

Definition internalIP (a : string) : v1.NodeAddress :=
  {| v1.AddrType := "InternalIP"; v1.Address := a |}.

Definition externalIP (a : string) : v1.NodeAddress :=
  {| v1.AddrType := "ExternalIP"; v1.Address := a |}.

(** A node whose Ready condition is False. *)
Definition notReadyNode : v1.Node :=
  mkNode "node-x" ∅ "aws:///x" [ready "False"] [internalIP "10.0.0.9"].

Definition nodeA : v1.Node :=
  mkNode "node-a" ∅ "aws:///a" [ready "True"] [internalIP "10.0.0.1"].

Definition nodeB : v1.Node :=
  mkNode "node-b" ∅ "aws:///b" [ready "True"] [internalIP "10.0.0.2"].

Definition nodeC : v1.Node :=
  mkNode "node-c" {[ "eks.amazonaws.com/compute-type" := "fargate" ]} "aws:///c"
    [ready "True"] [internalIP "10.0.0.3"].

(** A node with an external address only. *)
Definition nodeE : v1.Node :=
  mkNode "node-e" ∅ "aws:///e" [ready "True"] [externalIP "203.0.113.7"].

(** A node with no condition at all. *)
Definition nodeN : v1.Node :=
  mkNode "node-n" ∅ "aws:///n" [] [internalIP "10.0.0.4"].

Definition listing (items : list v1.Node) : kubernetes_Interface unit :=
  {| Nodes_List w := (inr items, w) |}.

Definition inClusterClient : raw_Client :=
  raw_NewClient {| Timeout := 60; InsecureSkipVerify := false |} false "token" 1.

Definition config (items : list v1.Node) (mode : Connection) (statsContainer : bool)
  : KubeAgentConfig unit :=
  {| ClusterHostURL := "https://api"; BearerToken := "token"; CollectionRetryLimit := 1;
     ForceKubeProxy := false; RetrieveStatsContainer := statsContainer;
     RetrieveNodeSummaries := true; Clientset := listing items;
     HTTPClient := {| Timeout := 60; InsecureSkipVerify := false |};
     NodeClient := raw_NewClient nodeHTTPClient true "token" 1;
     InClusterClient := inClusterClient;
     DirectEndpointMask := Some 0%nat; ProxyEndpointMask := Some 1%nat;
     nodeRetrievalMethod := mode |}.

Definition state (direct proxy : gset Endpoint) : State unit :=
  {| ext := {| world := tt; trace := [] |};
     masks := <[0%nat := direct]> (<[1%nat := proxy]> (λ _, ∅)) |}.

Definition allEndpoints : gset Endpoint :=
  {[ NodeStatsSummaryEndpoint; NodeCadvisorEndpoint; NodeContainerEndpoint ]}.

Definition refused : error := errors_New "connection refused".

(** Direct requests to node-b are refused; every other request succeeds
    and every probe finds its endpoint reachable. *)
Definition directToBFails : Oracles unit :=
  {| util_TestHTTPConnection _ _ _ _ _ _ w := ((true, None), w);
     raw_GetRawEndPoint _ _ _ _ url _ _ w :=
       (if String.prefix "https://10.0.0.2:" url then Some refused else None, w) |}.

(** Requests to a cadvisor endpoint are refused, the others succeed. *)
Definition cadvisorFails : Oracles unit :=
  {| util_TestHTTPConnection _ _ _ _ _ _ w := ((true, None), w);
     raw_GetRawEndPoint _ _ source _ _ _ _ w :=
       (if strings_Contains source "cadvisor" then Some refused else None, w) |}.

(** Every probe answers: not reachable, no error. *)
Definition nothingReachable : Oracles unit :=
  {| util_TestHTTPConnection _ _ _ _ _ _ w := ((false, None), w);
     raw_GetRawEndPoint _ _ _ _ _ _ _ w := (None, w) |}.

(** Probes of the API server fail with a transport error; probes of a
    node answer: not reachable. *)
Definition proxyProbeErrors : Oracles unit :=
  {| util_TestHTTPConnection _ url _ _ _ _ w :=
       (if String.prefix "https://api" url then (false, Some refused)
        else (false, None), w);
     raw_GetRawEndPoint _ _ _ _ _ _ _ w := (None, w) |}.

Definition cluster : list v1.Node := [nodeA; nodeB; nodeC].

Definition clusterSource : NodeSource unit :=
  ClientsetNodeSource_NodeSource (NewClientsetNodeSource (listing cluster)).

End Fixture.

(** ** The caller of the fetch cycle *)

(** The parts of [retrieveNodeSummaries] that lie outside the file: the two
    baseline functions of the package, and the warning line for a
    non-empty failure map.  Like a node source they act on the outside
    only. *)
Class Baselines (W : Type) := {
  fetchNodeBaselines : string -> string -> Ext W (option error);
  updateNodeBaselines : string -> string -> Ext W (option error);
  log_Warnf_failedNodeList : gmap string error -> Ext W unit
}.

(** [len] of a failure map that may be nil. *)
Definition len_failedNodeList (failedNodeList : option (gmap string error)) : nat :=
  match failedNodeList with
  | Some m => size m
  | None => 0
  end.

(** [retrieveNodeSummaries].  The field [config.msExportDirectory] is not
    among the fields of the configuration above: its name is the first
    argument.  The assignments to [config.failedNodeList] act on the local
    copy of the configuration and are read back at once. *)
Definition retrieveNodeSummaries `{Oracles W} `{Baselines W} (msExportDirectory_Name : string)
    (config : KubeAgentConfig W) (msd : string) (metricSampleDir : os_File)
    (nodeSource : NodeSource W) : M W (option error) :=
  (* get node stats data *)
  '(failedNodeList, err) ← downloadNodeData "stats" config metricSampleDir nodeSource;
  match err with
  | Some e => mret (Some (fmt_Errorf ("error downloading node metrics: " +:+ Error e)))
  | None =>
      (if (0 <? len_failedNodeList failedNodeList)%nat then
         lift (log_Warnf_failedNodeList (default ∅ failedNodeList))
       else mret tt);;
      (* move baseline metrics for each node into sample directory *)
      err ← lift (fetchNodeBaselines msd msExportDirectory_Name);
      match err with
      | Some e =>
          mret (Some (fmt_Errorf ("error fetching node baseline files: " +:+ Error e)))
      | None =>
          (* update node baselines with current sample *)
          err ← lift (updateNodeBaselines msd msExportDirectory_Name);
          match err with
          | Some e =>
              mret (Some (fmt_Errorf ("error updating node baseline files: " +:+ Error e)))
          | None => mret None
          end
      end
  end.

(** ** More notions for the statements *)

(** The event is a log line, or a probe made with the given client. *)
Definition probedBy (client : http_Client) (ev : Event) : Prop :=
  match ev with
  | EvTestHTTPConnection c _ _ _ _ _ => c = client
  | EvLog _ => True
  | _ => False
  end.

(** The mask marks StatsSummary available, and CAdvisor or Container. *)
Definition usableMask {W} (s : State W) (mask : EndpointMask) : bool :=
  availableIn s mask NodeStatsSummaryEndpoint &&
  (availableIn s mask NodeCadvisorEndpoint || availableIn s mask NodeContainerEndpoint).

(** The node has an address of type InternalIP. *)
Definition hasInternalIP (n : v1.Node) : Prop :=
  ∃ a, a ∈ v1.Addresses (v1.Status n) ∧ v1.AddrType a = v1.NodeInternalIP.

(** The three kinds of artifact of a node. *)
Definition artifactName (s : sourceName) (e : Endpoint) : string :=
  match e with
  | NodeStatsSummaryEndpoint => summary s
  | NodeContainerEndpoint => container s
  | NodeCadvisorEndpoint => cadvisorMetrics s
  end.

(** The url of an endpoint under an address builder. *)
Definition endpointURL `{nodeAPI T} (api : T) (e : Endpoint) : string :=
  match e with
  | NodeStatsSummaryEndpoint => statsSummary api
  | NodeContainerEndpoint => statsContainer api
  | NodeCadvisorEndpoint => mCAdvisor api
  end.

(** The end of [ensureNodeSource], from the proxy probe on, for the
    configuration that holds the node client. *)
Definition proxyOutcome `{Oracles W} (config1 : KubeAgentConfig W) (firstNode : v1.Node)
    (s3 : State W) : Res (KubeAgentConfig W * option error) * State W :=
  let p := proxyEndpoints (ClusterHostURL config1) (v1.Name firstNode) in
  match testNodeConn config1 (HTTPClient config1) (ProxyEndpointMask config1)
          (statsSummary p) (statsContainer p) (mCAdvisor p) s3 with
  | (Ret (_, Some e), s4) => (Ret (config1, Some e), s4)
  | (Ret (true, None), s4) =>
      (Ret (set_nodeRetrievalMethod proxy (set_NodeClient raw_Client_zero config1), None), s4)
  | (Ret (false, None), s4) =>
      (Ret (set_RetrieveNodeSummaries false (set_nodeRetrievalMethod unreachable config1),
            Some (fmt_Errorf
              ("unable to retrieve node metrics. Please verify RBAC roles: "
               +:+ fmt_v None))), s4)
  | (Panic msg, s4) => (Panic msg, s4)
  end.

(** The configuration with the node client that [ensureNodeSource] builds. *)
Definition withNodeClient {W} (config : KubeAgentConfig W) : KubeAgentConfig W :=
  set_NodeClient (raw_NewClient nodeHTTPClient true (BearerToken config)
                    (CollectionRetryLimit config)) config.

(** The event is a log line or a probe made with one of the two clients
    of the prober. *)
Definition proberEvent {W} (config : KubeAgentConfig W) (ev : Event) : Prop :=
  probedBy nodeHTTPClient ev ∨ probedBy (HTTPClient config) ev.

(** ** More fixtures *)

Module Examples.

(** Baseline functions that succeed and a warning that leaves no trace. *)
Definition baselinesOk : Baselines unit :=
  {| fetchNodeBaselines _ _ x := (None, x);
     updateNodeBaselines _ _ x := (None, x);
     log_Warnf_failedNodeList _ x := (tt, x) |}.

(** The state after the listing of a cycle or of the prober. *)
Definition listed : Extern unit := {| world := tt; trace := [EvListNodes] |}.

Definition source (items : list v1.Node) : NodeSource unit :=
  ClientsetNodeSource_NodeSource (NewClientsetNodeSource (Fixture.listing items)).

End Examples.

(** * Properties *)

Ltac run :=
  unfold mbind, mret, M_bind, M_ret, Ext_bind, Ext_ret, bind, ret, ebind, eret,
    lift, call, emit, log, panic in *;
  simpl in *.

Ltac case_oracle :=
  match goal with
  | |- context [raw_GetRawEndPoint ?c ?m ?src ?wd ?url ?b ?v ?w] =>
      destruct (raw_GetRawEndPoint c m src wd url b v w) as [[?|] ?]; simpl
  end.

Ltac case_probe :=
  match goal with
  | |- context [util_TestHTTPConnection ?c ?u ?m ?t ?r ?v ?w] =>
      destruct (util_TestHTTPConnection c u m t r v w) as [[? [?|]] ?]; simpl
  end.

(** ** Node directory *)

Lemma getNodeCondition_from_spec conds i ty :
  (Forall (λ c, v1.Type_ c ≠ ty) conds ∧ getNodeCondition_from conds i ty = (-1, None)) ∨
  (∃ j c, getNodeCondition_from conds i ty = (j, Some c) ∧ i <= j ∧
          c ∈ conds ∧ v1.Type_ c = ty).
Proof.
  revert i. induction conds as [|c rest IH]; intros i; simpl.
  - left. split; [constructor | reflexivity].
  - destruct (String.eqb_spec (v1.Type_ c) ty) as [Heq|Hne].
    + right. exists i, c. repeat split; [lia | left | exact Heq].
    + destruct (IH (i + 1)) as [[Hall Hr]|(j & c' & Hr & Hle & Hin & Hty)].
      * left. split; [constructor; assumption | exact Hr].
      * right. exists j, c'. repeat split; [exact Hr | lia | right; exact Hin | exact Hty].
Qed.

(** The pointer that [getNodeCondition] returns is nil exactly when the
    index is negative. *)
Lemma getNodeCondition_found status ty i nc :
  getNodeCondition status ty = (i, nc) →
  (0 <= i ↔ is_Some nc).
Proof.
  destruct status as [st|]; simpl.
  - destruct (getNodeCondition_from_spec (v1.Conditions st) 0 ty)
      as [[_ Hr]|(j & c & Hr & Hle & _)]; rewrite Hr; intros [= <- <-].
    + split; [lia | intros [? [=]]].
    + split; [eauto | intros; exact Hle].
  - intros [= <- <-]. split; [lia | intros [? [=]]].
Qed.

(** A node is retained exactly when it has a condition of type Ready,
    whatever the status of that condition. *)
Lemma retained_iff n :
  retained n = true ↔ ∃ c, c ∈ v1.Conditions (v1.Status n) ∧ v1.Type_ c = v1.NodeReady.
Proof.
  unfold retained, getNodeCondition, readyTest.
  destruct (getNodeCondition_from_spec (v1.Conditions (v1.Status n)) 0 v1.NodeReady)
    as [[Hall Hr]|(j & c & Hr & Hle & Hin & Hty)]; rewrite Hr.
  - split; [discriminate|]. intros (c & Hin & Hty).
    rewrite Forall_forall in Hall. apply list_elem_of_In in Hin.
    exfalso. exact (Hall c Hin Hty).
  - split; [eauto|]. intros _. apply andb_true_intro. split.
    + apply Z.leb_le. exact Hle.
    + apply String.eqb_eq. exact Hty.
Qed.

Lemma GetReadyNodes_loop_cons {W} (n : v1.Node) (rest acc : list v1.Node) (x : Extern W) :
  GetReadyNodes_loop (n :: rest) acc x =
    if retained n then GetReadyNodes_loop rest (acc ++ [n]) x
    else GetReadyNodes_loop rest acc
           {| world := world x; trace := trace x ++ [notReadyLog n] |}.
Proof.
  unfold retained, notReadyLog. simpl.
  destruct (getNodeCondition_from _ _ _) as [i nc].
  destruct (readyTest i nc); reflexivity.
Qed.

Lemma GetReadyNodes_loop_run {W} (items acc : list v1.Node) (x : Extern W) :
  GetReadyNodes_loop items acc x =
    (acc ++ List.filter retained items,
     {| world := world x;
        trace := trace x ++ map notReadyLog (List.filter (λ n, negb (retained n)) items) |}).
Proof.
  revert acc x. induction items as [|n rest IH]; intros acc x.
  - simpl. rewrite !app_nil_r. destruct x; reflexivity.
  - rewrite GetReadyNodes_loop_cons. cbn [List.filter].
    destruct (retained n); cbn [negb map]; rewrite IH; cbn [world trace];
      rewrite <- app_assoc; reflexivity.
Qed.

(** What [GetReadyNodes] computes from a listing. *)
Lemma GetReadyNodes_run {W} (cns : ClientsetNodeSource W) (x : Extern W) :
  ClientsetNodeSource_GetReadyNodes cns x =
    match Nodes_List (clientSet cns) (world x) with
    | (inl err, w') => ([], Some err, {| world := w'; trace := trace x ++ [EvListNodes] |})
    | (inr allNodes, w') =>
        let readyNodes := List.filter retained allNodes in
        let logs := map notReadyLog (List.filter (λ n, negb (retained n)) allNodes) in
        match readyNodes with
        | [] => ([], Some (fmt_Errorf "there were 0 nodes in a ready state"),
                 {| world := w'; trace := (trace x ++ [EvListNodes]) ++ logs |})
        | _ :: _ =>
            (readyNodes, None,
             {| world := w';
                trace := ((trace x ++ [EvListNodes]) ++ logs) ++
                         (if negb (length readyNodes =? length allNodes)%nat
                          then [EvLog LogSomeNodesNotReady] else []) |})
        end
    end.
Proof.
  unfold ClientsetNodeSource_GetReadyNodes. run.
  destruct (Nodes_List (clientSet cns) (world x)) as [[err|allNodes] w']; [reflexivity|].
  rewrite GetReadyNodes_loop_run. cbn [app world trace].
  destruct (List.filter retained allNodes) as [|n0 ready0] eqn:Hf; [reflexivity|].
  cbn [length Nat.eqb].
  destruct (negb _); cbn; rewrite ?app_nil_r; reflexivity.
Qed.

(** The nodes that [GetReadyNodes] returns are the retained ones, in the
    order of the listing. *)
Lemma GetReadyNodes_returns_retained {W} (cns : ClientsetNodeSource W) (x : Extern W)
    (items : list v1.Node) (w' : W) :
  Nodes_List (clientSet cns) (world x) = (inr items, w') →
  fst (fst (ClientsetNodeSource_GetReadyNodes cns x)) = List.filter retained items.
Proof.
  intros Hl. rewrite GetReadyNodes_run, Hl. cbv zeta.
  destruct (List.filter retained items); reflexivity.
Qed.

(** Every node of the listing with a Ready condition of status True is
    among them. *)
Lemma GetReadyNodes_retains_ready {W} (cns : ClientsetNodeSource W) (x : Extern W)
    (items : list v1.Node) (w' : W) (n : v1.Node) :
  Nodes_List (clientSet cns) (world x) = (inr items, w') →
  n ∈ items → ReadyConditionTrue n →
  n ∈ fst (fst (ClientsetNodeSource_GetReadyNodes cns x)).
Proof.
  intros Hl Hin (c & Hc & Hty & _).
  rewrite (GetReadyNodes_returns_retained cns x items w' Hl).
  apply list_elem_of_In, filter_In. split; [apply list_elem_of_In; exact Hin|].
  apply retained_iff. eauto.
Qed.

(** C1: on a listing of one node whose Ready condition has status False,
    [GetReadyNodes] returns that node without error, although the node has
    no Ready condition with status True: the loop tests the type of the
    condition it found, not its status. *)
Theorem GetReadyNodes_keeps_not_ready_node :
  let cns := NewClientsetNodeSource (Fixture.listing [Fixture.notReadyNode]) in
  fst (ClientsetNodeSource_GetReadyNodes cns {| world := tt; trace := [] |})
    = ([Fixture.notReadyNode], None) ∧
  ¬ ReadyConditionTrue Fixture.notReadyNode.
Proof.
  split; [reflexivity|].
  intros (c & Hin & _ & Hst). cbn in Hin.
  apply list_elem_of_singleton in Hin. subst c. discriminate Hst.
Qed.

(** ** Fleet heterogeneity policy *)

Lemma fargateb_iff n : fargateb n = true ↔ FargateLabelled n.
Proof.
  unfold fargateb, FargateLabelled.
  destruct (v1.Labels n !! "eks.amazonaws.com/compute-type") as [v|]; simpl.
  - rewrite String.eqb_eq. split; congruence.
  - split; discriminate.
Qed.

Lemma isFargateNode_run {W} (n : v1.Node) (x : Extern W) :
  isFargateNode n x =
    (fargateb n,
     if fargateb n
     then {| world := world x; trace := trace x ++ [EvLog (LogFargateNodeFound (v1.Name n))] |}
     else x).
Proof.
  unfold isFargateNode, fargateb.
  destruct (String.eqb _ _); reflexivity.
Qed.

Lemma allowDirectConnect_loop_val {W} (nodes : list v1.Node) (x : Extern W) :
  fst (allowDirectConnect_loop nodes x) = negb (existsb fargateb nodes).
Proof.
  revert x. induction nodes as [|n rest IH]; intros x; [reflexivity|].
  cbn [allowDirectConnect_loop existsb]. run. rewrite isFargateNode_run.
  destruct (fargateb n); simpl; [reflexivity | apply IH].
Qed.

Lemma allowDirectConnect_val {W} (config : KubeAgentConfig W) (nodes : list v1.Node)
    (x : Extern W) :
  fst (allowDirectConnect config nodes x) =
    negb (ForceKubeProxy config || existsb fargateb nodes).
Proof.
  unfold allowDirectConnect.
  destruct (ForceKubeProxy config); [reflexivity|].
  apply allowDirectConnect_loop_val.
Qed.

Lemma existsb_fargateb nodes :
  existsb fargateb nodes = true ↔ ∃ n, n ∈ nodes ∧ FargateLabelled n.
Proof.
  rewrite existsb_exists. split; intros (n & Hin & Hf); exists n.
  - split; [apply list_elem_of_In; exact Hin | apply fargateb_iff; exact Hf].
  - split; [apply list_elem_of_In; exact Hin | apply fargateb_iff; exact Hf].
Qed.

(** C4: [allowDirectConnect] answers false exactly when the configuration
    forces kube-proxy or some node of the list carries the label
    eks.amazonaws.com/compute-type with value fargate, whatever the other
    nodes are; it answers true exactly when neither holds. *)
Theorem allowDirectConnect_false_iff {W} (config : KubeAgentConfig W)
    (nodes : list v1.Node) (x : Extern W) :
  (fst (allowDirectConnect config nodes x) = false ↔
     ForceKubeProxy config = true ∨ ∃ n, n ∈ nodes ∧ FargateLabelled n) ∧
  (fst (allowDirectConnect config nodes x) = true ↔
     ForceKubeProxy config = false ∧ ∀ n, n ∈ nodes → ¬ FargateLabelled n).
Proof.
  rewrite allowDirectConnect_val, negb_false_iff, negb_true_iff,
    orb_true_iff, orb_false_iff, existsb_fargateb.
  split; [reflexivity|].
  split; intros [Hf Hn]; (split; [exact Hf|]).
  - intros n Hin Hlab.
    assert (existsb fargateb nodes = true) as He
      by (apply existsb_fargateb; eauto).
    congruence.
  - destruct (existsb fargateb nodes) eqn:He; [|reflexivity].
    apply existsb_fargateb in He as (n & Hin & Hlab).
    exfalso. exact (Hn n Hin Hlab).
Qed.

(** ** Single-node endpoint fetch *)

Lemma Available_run {W} (mask : EndpointMask) (e : Endpoint) (s : State W) :
  Available mask e s = (Ret (availableIn s mask e), s).
Proof. destruct mask; reflexivity. Qed.

Lemma retrieveNodeData_visit `{Oracles W} `{nodeAPI T} (nd : nodeFetchData)
    (c : raw_Client) (mask : EndpointMask) (api : T) (s : State W) :
  retrieveNodeData nd c mask api s = visitEndpoints nd c mask api fetchOrder s.
Proof.
  unfold retrieveNodeData, fetchOrder, visitEndpoints, endpointRequest, endpointAnswer,
    endpointEvent, GetRawEndPoint.
  run. unfold Available.
  destruct mask as [l|]; simpl; [|reflexivity].
  destruct (bool_decide (NodeStatsSummaryEndpoint ∈ masks s l)); simpl;
    [case_oracle; [reflexivity|] |];
    (destruct (bool_decide (NodeCadvisorEndpoint ∈ masks s l)); simpl;
     [case_oracle; [reflexivity|] |]);
    (destruct (bool_decide (NodeContainerEndpoint ∈ masks s l)); simpl;
     [case_oracle; reflexivity | reflexivity]).
Qed.

Lemma endpointRequest_trace `{Oracles W} `{nodeAPI T} (nd : nodeFetchData)
    (c : raw_Client) (api : T) (e : Endpoint) (x : Extern W) :
  trace (snd (endpointRequest nd c api e x)) = trace x ++ [endpointEvent nd c api e].
Proof.
  unfold endpointRequest, call.
  destruct (endpointAnswer nd c api e (world x)); reflexivity.
Qed.

(** A fetch returns, leaves the masks alone and only appends to the trace. *)
Lemma visitEndpoints_frame `{Oracles W} `{nodeAPI T} (nd : nodeFetchData)
    (c : raw_Client) (mask : EndpointMask) (api : T) (es : list Endpoint) (s : State W) :
  ∃ r s' evs, visitEndpoints nd c mask api es s = (Ret r, s') ∧
              masks s' = masks s ∧ trace (ext s') = trace (ext s) ++ evs.
Proof.
  revert s. induction es as [|e rest IH]; intros s.
  - exists None, s, []. rewrite app_nil_r. repeat split.
  - cbn [visitEndpoints]. run. rewrite Available_run.
    destruct (availableIn s mask e).
    + pose proof (endpointRequest_trace nd c api e
        {| world := world (ext s); trace := trace (ext s) ++ [EvLog (LogFetching e)] |})
        as Htr.
      destruct (endpointRequest nd c api e _) as [[err|] x'] eqn:Hreq; simpl in Htr.
      * eexists _, _, _. split; [reflexivity|]. split; [reflexivity|]. simpl.
        rewrite Htr, <- app_assoc. reflexivity.
      * destruct (IH {| ext := x'; masks := masks s |}) as (r & s' & evs & Hrun & Hm & Ht).
        rewrite Hrun. eexists _, _, _. split; [reflexivity|]. split; [exact Hm|].
        rewrite Ht. simpl. rewrite Htr, <- !app_assoc. reflexivity.
    + apply IH.
Qed.

Lemma retrieveNodeData_frame `{Oracles W} `{nodeAPI T} (nd : nodeFetchData)
    (c : raw_Client) (mask : EndpointMask) (api : T) (s : State W) :
  ∃ r s' evs, retrieveNodeData nd c mask api s = (Ret r, s') ∧
              masks s' = masks s ∧ trace (ext s') = trace (ext s) ++ evs.
Proof. rewrite retrieveNodeData_visit. apply visitEndpoints_frame. Qed.

Lemma availableIn_masks {W} (s s' : State W) mask e :
  masks s' = masks s → availableIn s' mask e = availableIn s mask e.
Proof. intros Hm. unfold availableIn. rewrite Hm. reflexivity. Qed.

Lemma filter_availableIn_masks {W} (s s' : State W) mask es :
  masks s' = masks s →
  List.filter (availableIn s' mask) es = List.filter (availableIn s mask) es.
Proof.
  intros Hm. induction es as [|e rest IH]; [reflexivity|].
  simpl. rewrite IH, (availableIn_masks s s' mask e Hm). reflexivity.
Qed.

(** The endpoints that a fetch attempts are a prefix of the available
    ones, in the order of the list; all of them when no error comes back. *)
Lemma visitEndpoints_attempts `{Oracles W} `{nodeAPI T} (nd : nodeFetchData)
    (c : raw_Client) (mask : EndpointMask) (api : T) (es : list Endpoint) (s : State W) :
  ∃ r s' attempted,
    visitEndpoints nd c mask api es s = (Ret r, s') ∧
    attempted `prefix_of` List.filter (availableIn s mask) es ∧
    trace (ext s') = trace (ext s) ++ attemptEvents nd c api attempted ∧
    masks s' = masks s ∧
    (r = None → attempted = List.filter (availableIn s mask) es).
Proof.
  revert s. induction es as [|e rest IH]; intros s.
  - exists None, s, []. rewrite app_nil_r. repeat split. reflexivity.
  - cbn [visitEndpoints List.filter]. run. rewrite Available_run.
    destruct (availableIn s mask e).
    + pose proof (endpointRequest_trace nd c api e
        {| world := world (ext s); trace := trace (ext s) ++ [EvLog (LogFetching e)] |})
        as Htr.
      destruct (endpointRequest nd c api e _) as [[err|] x'] eqn:Hreq; simpl in Htr.
      * exists (Some err), {| ext := x'; masks := masks s |}, [e].
        split; [reflexivity|]. split; [apply prefix_cons, prefix_nil|].
        split; [|split; [reflexivity | discriminate]].
        simpl. rewrite Htr, <- app_assoc. reflexivity.
      * destruct (IH {| ext := x'; masks := masks s |})
          as (r & s' & att & Hrun & Hpre & Ht & Hm & Hall).
        rewrite (filter_availableIn_masks s) in Hpre, Hall by reflexivity.
        exists r, s', (e :: att). split; [exact Hrun|].
        split; [apply prefix_cons; exact Hpre|].
        split; [|split; [exact Hm | intros Hr; f_equal; exact (Hall Hr)]].
        rewrite Ht. simpl. rewrite Htr, <- !app_assoc. reflexivity.
    + apply IH.
Qed.

(** C5: [retrieveNodeData] visits StatsSummary, CAdvisor, Container in
    that order, fetching an endpoint only when the mask marks it
    available, and the first error ends the visit: the function is the
    in-order visit of the spec; the endpoints it attempts are a prefix of
    the available ones, all of them when it returns nil; and when
    StatsSummary is fetched and CAdvisor fails, the error of CAdvisor is
    returned and the trace gains the two requests and no Container
    request. *)
Theorem retrieveNodeData_first_error_aborts `{Oracles W} `{nodeAPI T}
    (nd : nodeFetchData) (c : raw_Client) (mask : EndpointMask) (api : T) (s : State W) :
  retrieveNodeData nd c mask api s = visitEndpoints nd c mask api fetchOrder s ∧
  (∃ r s' attempted,
     retrieveNodeData nd c mask api s = (Ret r, s') ∧
     attempted `prefix_of` List.filter (availableIn s mask) fetchOrder ∧
     trace (ext s') = trace (ext s) ++ attemptEvents nd c api attempted ∧
     (r = None → attempted = List.filter (availableIn s mask) fetchOrder)) ∧
  (∀ w1 w2 err,
     availableIn s mask NodeStatsSummaryEndpoint = true →
     availableIn s mask NodeCadvisorEndpoint = true →
     endpointAnswer nd c api NodeStatsSummaryEndpoint (world (ext s)) = (None, w1) →
     endpointAnswer nd c api NodeCadvisorEndpoint w1 = (Some err, w2) →
     ∃ s', retrieveNodeData nd c mask api s = (Ret (Some err), s') ∧
           world (ext s') = w2 ∧
           trace (ext s') = trace (ext s) ++
             attemptEvents nd c api [NodeStatsSummaryEndpoint; NodeCadvisorEndpoint] ∧
           endpointEvent nd c api NodeContainerEndpoint ∉
             attemptEvents nd c api [NodeStatsSummaryEndpoint; NodeCadvisorEndpoint]).
Proof.
  split; [apply retrieveNodeData_visit|]. split.
  - rewrite retrieveNodeData_visit.
    destruct (visitEndpoints_attempts nd c mask api fetchOrder s)
      as (r & s' & att & Hrun & Hpre & Ht & _ & Hall).
    exists r, s', att. auto.
  - intros w1 w2 err Ha1 Ha2 Hr1 Hr2.
    rewrite retrieveNodeData_visit. unfold fetchOrder.
    cbn [visitEndpoints]. run. rewrite !Available_run, Ha1.
    unfold endpointRequest, call. simpl. rewrite Hr1. simpl.
    rewrite Available_run.
    rewrite (availableIn_masks s) by reflexivity. rewrite Ha2. simpl.
    rewrite Hr2. eexists. split; [reflexivity|]. simpl.
    split; [reflexivity|]. split; [rewrite <- !app_assoc; reflexivity|].
    intros Hin. repeat (apply elem_of_cons in Hin as [Hin|Hin]; [discriminate Hin|]).
    apply elem_of_nil in Hin. exact Hin.
Qed.

(** ** Cyclical fetch orchestrator *)

Lemma proxyNodeFetch_frame `{Oracles W} (nd : nodeFetchData) (config : KubeAgentConfig W)
    (s : State W) :
  ∃ r s' evs, proxyNodeFetch nd config s = (Ret r, s') ∧
              masks s' = masks s ∧ trace (ext s') = trace (ext s) ++ evs.
Proof. apply retrieveNodeData_frame. Qed.

Lemma directNodeFetch_frame `{Oracles W} (nodeSource : NodeSource W)
    (config : KubeAgentConfig W) (n : v1.Node) (nd : nodeFetchData) (s : State W) :
  ∃ r s', directNodeFetch nodeSource config n nd s = (Ret r, s') ∧ masks s' = masks s.
Proof.
  unfold directNodeFetch. run.
  destruct (NodeAddress nodeSource n (ext s)) as [[[ip port] [e|]] x'].
  - eexists _, _. split; reflexivity.
  - destruct (retrieveNodeData_frame nd (NodeClient config) (DirectEndpointMask config)
               (directNodeEndpoints ip port) {| ext := x'; masks := masks s |})
      as (r & s' & evs & Hrun & Hm & _).
    exists r, s'. split; assumption.
Qed.

(** The body of the loop, by cases on what the fetches return. *)
Lemma downloadNodeData_node_run `{Oracles W} (prefix : string) (config : KubeAgentConfig W)
    (workDir : os_File) (nodeSource : NodeSource W) (containersRequest : string)
    (fl : gmap string error) (n : v1.Node) (s : State W) :
  let nd := fetchContext prefix config workDir containersRequest n in
  let viaProxy (fl : gmap string error) (s : State W) :=
    match proxyNodeFetch nd config s with
    | (Ret (Some e), s') => (Ret (<[v1.Name n := proxyFailedNote e]> fl), s')
    | (Ret None, s') => (Ret fl, s')
    | (Panic msg, s') => (Panic msg, s')
    end in
  downloadNodeData_node prefix config workDir nodeSource containersRequest fl n s =
    if decide (nodeRetrievalMethod config = direct) then
      let s0 := {| ext := snd (isFargateNode n (ext s)); masks := masks s |} in
      if fargateb n then viaProxy (providerNote fl n) s0
      else
        match directNodeFetch nodeSource config n nd s0 with
        | (Ret None, s1) => (Ret (providerNote fl n), s1)
        | (Ret (Some e), s1) =>
            viaProxy (<[v1.Name n := directFailedNote e]> (providerNote fl n)) s1
        | (Panic msg, s1) => (Panic msg, s1)
        end
    else viaProxy (providerNote fl n) s.
Proof.
  intros nd viaProxy. unfold downloadNodeData_node. run.
  fold (providerNote fl n). fold (fetchContext prefix config workDir containersRequest n).
  fold nd. subst viaProxy. cbv beta.
  destruct (decide (nodeRetrievalMethod config = direct)) as [Hd|Hd]; simpl.
  - rewrite isFargateNode_run. simpl.
    destruct (fargateb n); simpl.
    + destruct (proxyNodeFetch nd config _) as [[[e|]|msg] s']; reflexivity.
    + destruct s as [x m]; simpl.
      destruct (directNodeFetch nodeSource config n nd _) as [[[e|]|msg] s1];
        try reflexivity.
      destruct (proxyNodeFetch nd config s1) as [[[e'|]|msg] s']; reflexivity.
  - destruct s as [x m]; simpl.
    destruct (proxyNodeFetch nd config _) as [[[e|]|msg] s']; reflexivity.
Qed.

Lemma extendsAt_refl name fl : extendsAt name fl fl.
Proof. split; auto. Qed.

Lemma extendsAt_insert name e fl : extendsAt name fl (<[name := e]> fl).
Proof.
  split.
  - intros k Hk. destruct (decide (name = k)) as [->|Hne].
    + rewrite lookup_insert_eq. eauto.
    + rewrite lookup_insert_ne by exact Hne. exact Hk.
  - intros k Hne. apply lookup_insert_ne. congruence.
Qed.

Lemma extendsAt_trans name fl1 fl2 fl3 :
  extendsAt name fl1 fl2 → extendsAt name fl2 fl3 → extendsAt name fl1 fl3.
Proof.
  intros [Ha1 Hb1] [Ha2 Hb2]. split.
  - auto.
  - intros k Hne. rewrite Hb2, Hb1 by exact Hne. reflexivity.
Qed.

Lemma extendsAt_providerNote fl n : extendsAt (v1.Name n) fl (providerNote fl n).
Proof.
  unfold providerNote. destruct (String.eqb _ _);
    [apply extendsAt_insert | apply extendsAt_refl].
Qed.

(** Processing a node returns, leaves the masks alone, and can only add
    an entry under the node's name. *)
Lemma downloadNodeData_node_frame `{Oracles W} (prefix : string)
    (config : KubeAgentConfig W) (workDir : os_File) (nodeSource : NodeSource W)
    (containersRequest : string) (fl : gmap string error) (n : v1.Node) (s : State W) :
  ∃ fl' s',
    downloadNodeData_node prefix config workDir nodeSource containersRequest fl n s
      = (Ret fl', s') ∧
    masks s' = masks s ∧ extendsAt (v1.Name n) fl fl'.
Proof.
  rewrite downloadNodeData_node_run. cbv zeta.
  set (nd := fetchContext prefix config workDir containersRequest n).
  assert (∀ fl0 s0, extendsAt (v1.Name n) fl fl0 → masks s0 = masks s →
            ∃ fl' s',
              match proxyNodeFetch nd config s0 with
              | (Ret (Some e), s') => (Ret (<[v1.Name n := proxyFailedNote e]> fl0), s')
              | (Ret None, s') => (Ret fl0, s')
              | (Panic msg, s') => (Panic msg, s')
              end = (Ret fl', s') ∧
              masks s' = masks s ∧ extendsAt (v1.Name n) fl fl') as Hproxy.
  { intros fl0 s0 Hext Hm0.
    destruct (proxyNodeFetch_frame nd config s0) as (r & s' & evs & Hrun & Hm & _).
    rewrite Hrun. destruct r as [e|]; eexists _, s'; (split; [reflexivity|]);
      (split; [congruence|]); [|exact Hext].
    eapply extendsAt_trans; [exact Hext | apply extendsAt_insert]. }
  destruct (decide (nodeRetrievalMethod config = direct)) as [Hd|Hd].
  - destruct (fargateb n).
    + apply Hproxy; [apply extendsAt_providerNote | reflexivity].
    + destruct (directNodeFetch_frame nodeSource config n nd
                  {| ext := snd (isFargateNode n (ext s)); masks := masks s |})
        as (r & s1 & Hrun & Hm1).
      rewrite Hrun. destruct r as [e|].
      * apply Hproxy; [|exact Hm1].
        eapply extendsAt_trans; [apply extendsAt_providerNote | apply extendsAt_insert].
      * eexists _, s1. split; [reflexivity|]. split; [exact Hm1|].
        apply extendsAt_providerNote.
  - apply Hproxy; [apply extendsAt_providerNote | reflexivity].
Qed.

(** The loop returns, leaves the masks alone, and keeps every entry; the
    entries of names that are not in the list are untouched. *)
Lemma downloadNodeData_loop_frame `{Oracles W} (prefix : string)
    (config : KubeAgentConfig W) (workDir : os_File) (nodeSource : NodeSource W)
    (containersRequest : string) (nodes : list v1.Node) (fl : gmap string error)
    (s : State W) :
  ∃ fl' s',
    downloadNodeData_loop prefix config workDir nodeSource containersRequest nodes fl s
      = (Ret fl', s') ∧
    masks s' = masks s ∧
    (∀ k, is_Some (fl !! k) → is_Some (fl' !! k)) ∧
    (∀ k, k ∉ map v1.Name nodes → fl' !! k = fl !! k).
Proof.
  revert fl s. induction nodes as [|n rest IH]; intros fl s.
  - exists fl, s. repeat split; auto.
  - cbn [downloadNodeData_loop]. run.
    destruct (downloadNodeData_node_frame prefix config workDir nodeSource
                containersRequest fl n s) as (fl1 & s1 & Hrun & Hm1 & Hkeep1 & Hother1).
    rewrite Hrun.
    destruct (IH fl1 s1) as (fl' & s' & Hrun' & Hm' & Hkeep' & Hother').
    exists fl', s'. split; [exact Hrun'|]. split; [congruence|]. split.
    + auto.
    + intros k Hk. rewrite not_elem_of_cons in Hk. destruct Hk as [Hne Hk].
      rewrite Hother', Hother1 by auto. reflexivity.
Qed.

Lemma downloadNodeData_loop_app `{Oracles W} (prefix : string)
    (config : KubeAgentConfig W) (workDir : os_File) (nodeSource : NodeSource W)
    (containersRequest : string) (pre post : list v1.Node) (fl : gmap string error)
    (s : State W) :
  downloadNodeData_loop prefix config workDir nodeSource containersRequest (pre ++ post) fl s
  = match downloadNodeData_loop prefix config workDir nodeSource containersRequest pre fl s
    with
    | (Ret fl1, s1) =>
        downloadNodeData_loop prefix config workDir nodeSource containersRequest post fl1 s1
    | (Panic msg, s1) => (Panic msg, s1)
    end.
Proof.
  revert fl s. induction pre as [|n rest IH]; intros fl s; [reflexivity|].
  cbn [app downloadNodeData_loop]. run.
  destruct (downloadNodeData_node _ _ _ _ _ _ _ _) as [[fl1|msg] s1]; [apply IH | reflexivity].
Qed.

Lemma downloadNodeData_run `{Oracles W} (prefix : string) (config : KubeAgentConfig W)
    (workDir : os_File) (nodeSource : NodeSource W) (s : State W) :
  downloadNodeData prefix config workDir nodeSource s =
    match RetryOnConflict DefaultBackoff (GetReadyNodes nodeSource) (ext s) with
    | (_, Some e, x') => (Ret (None, Some (listingFailed e)), {| ext := x'; masks := masks s |})
    | (nodes, None, x') =>
        match downloadNodeData_loop prefix config workDir nodeSource
                (fst buildContainersRequest) nodes ∅ {| ext := x'; masks := masks s |} with
        | (Ret fl, s') => (Ret (Some fl, None), s')
        | (Panic msg, s') => (Panic msg, s')
        end
    end.
Proof.
  unfold downloadNodeData. run.
  destruct (RetryOnConflict DefaultBackoff (GetReadyNodes nodeSource) (ext s))
    as [[nodes [e|]] x']; [reflexivity|].
  destruct (downloadNodeData_loop _ _ _ _ _ _ _ _) as [[fl|msg] s']; reflexivity.
Qed.

(** C8: a fetch cycle leaves the store of masks as it found it: after
    [downloadNodeData], and after [retrieveNodeData], every mask map holds
    what it held before, so the Direct and the Proxy mask of the
    configuration mark the same endpoints available; both calls return.
    The configuration is passed by value and is not returned, so the
    retrieval mode of the caller can not change. *)
Theorem fetch_cycle_preserves_masks `{Oracles W} `{nodeAPI T} (prefix : string)
    (config : KubeAgentConfig W) (workDir : os_File) (nodeSource : NodeSource W)
    (nd : nodeFetchData) (c : raw_Client) (mask : EndpointMask) (api : T) (s : State W) :
  (∃ r s', downloadNodeData prefix config workDir nodeSource s = (Ret r, s') ∧
           masks s' = masks s ∧
           (∀ e, availableIn s' (DirectEndpointMask config) e
                 = availableIn s (DirectEndpointMask config) e) ∧
           (∀ e, availableIn s' (ProxyEndpointMask config) e
                 = availableIn s (ProxyEndpointMask config) e)) ∧
  (∃ r s', retrieveNodeData nd c mask api s = (Ret r, s') ∧
           masks s' = masks s ∧
           (∀ e, availableIn s' mask e = availableIn s mask e)).
Proof.
  split.
  - rewrite downloadNodeData_run.
    destruct (RetryOnConflict DefaultBackoff (GetReadyNodes nodeSource) (ext s))
      as [[nodes [e|]] x'].
    + eexists _, _. split; [reflexivity|]. repeat split.
    + destruct (downloadNodeData_loop_frame prefix config workDir nodeSource
                  (fst buildContainersRequest) nodes ∅ {| ext := x'; masks := masks s |})
        as (fl & s' & Hrun & Hm & _).
      rewrite Hrun. eexists _, s'. split; [reflexivity|]. simpl in Hm.
      split; [exact Hm|]. split; intros e; apply availableIn_masks; exact Hm.
  - destruct (retrieveNodeData_frame nd c mask api s) as (r & s' & evs & Hrun & Hm & _).
    exists r, s'. split; [exact Hrun|]. split; [exact Hm|].
    intros e. apply availableIn_masks. exact Hm.
Qed.

(** C7: when the listing (with its retry on conflict) ends in an error,
    [downloadNodeData] returns the nil map and an error, in the state the
    listing left: nothing is fetched.  With the cluster client as node
    source this is the case when no node of the listing is retained:
    [GetReadyNodes] then fails, and the trace of the cycle holds the
    listing and its log lines only. *)
Theorem downloadNodeData_listing_failure `{Oracles W} (prefix : string)
    (config : KubeAgentConfig W) (workDir : os_File) (s : State W) :
  (∀ (nodeSource : NodeSource W) nodes e x',
     RetryOnConflict DefaultBackoff (GetReadyNodes nodeSource) (ext s) = (nodes, Some e, x') →
     downloadNodeData prefix config workDir nodeSource s
       = (Ret (None, Some (listingFailed e)), {| ext := x'; masks := masks s |})) ∧
  (∀ (cs : kubernetes_Interface W) items w',
     Nodes_List cs (world (ext s)) = (inr items, w') →
     List.filter retained items = [] →
     let cns := NewClientsetNodeSource cs in
     let zero := fmt_Errorf "there were 0 nodes in a ready state" in
     ∃ x',
       ClientsetNodeSource_GetReadyNodes cns (ext s) = ([], Some zero, x') ∧
       downloadNodeData prefix config workDir (ClientsetNodeSource_NodeSource cns) s
         = (Ret (None, Some (listingFailed zero)), {| ext := x'; masks := masks s |}) ∧
       world x' = w' ∧
       trace x' = trace (ext s) ++ EvListNodes :: map notReadyLog items ∧
       Forall (λ ev, isFetch ev = false) (EvListNodes :: map notReadyLog items)).
Proof.
  split.
  - intros nodeSource nodes e x' Hlist.
    rewrite downloadNodeData_run, Hlist. reflexivity.
  - intros cs items w' Hl Hzero cns zero.
    assert (List.filter (λ n, negb (retained n)) items = items) as Hall.
    { clear Hl. induction items as [|n rest IH]; [reflexivity|].
      simpl in *. destruct (retained n); [discriminate|]. simpl. f_equal. auto. }
    eexists. split; [|split; [|split; [|split]]].
    + rewrite GetReadyNodes_run. subst cns. simpl. rewrite Hl, Hzero. reflexivity.
    + rewrite downloadNodeData_run. unfold RetryOnConflict. simpl. run.
      rewrite GetReadyNodes_run. subst cns. simpl. rewrite Hl, Hzero. reflexivity.
    + reflexivity.
    + simpl. rewrite Hall, <- app_assoc. reflexivity.
    + constructor; [reflexivity|]. apply Forall_forall. intros ev Hin.
      apply list_elem_of_In, list_elem_of_fmap in Hin as (n & -> & _). reflexivity.
Qed.

Lemma NodeAddress_loop_none addrs :
  Forall (λ a, v1.AddrType a ≠ v1.NodeInternalIP) addrs → NodeAddress_loop addrs = None.
Proof.
  induction 1 as [|a rest Ha _ IH]; [reflexivity|].
  simpl. destruct (String.eqb_spec (v1.AddrType a) v1.NodeInternalIP); [contradiction|].
  exact IH.
Qed.

Lemma fargateb_false n : ¬ FargateLabelled n → fargateb n = false.
Proof.
  intros Hn. destruct (fargateb n) eqn:Hf; [|reflexivity].
  apply fargateb_iff in Hf. contradiction.
Qed.

(** C9: a node without an address of type InternalIP has no address for
    [NodeAddress], whatever other addresses it reports; [directNodeFetch]
    on it returns that error, wrapped, in the state it was called in, so
    no request was issued; and in a Direct cycle the orchestrator records
    the failure and goes on with the proxy fetch of the node. *)
Theorem no_internal_ip_never_direct `{Oracles W} (prefix : string)
    (config : KubeAgentConfig W) (workDir : os_File) (containersRequest : string)
    (cs : kubernetes_Interface W) (fl : gmap string error) (n : v1.Node) (s : State W) :
  Forall (λ a, v1.AddrType a ≠ v1.NodeInternalIP) (v1.Addresses (v1.Status n)) →
  let nodeSource := ClientsetNodeSource_NodeSource (NewClientsetNodeSource cs) in
  let nd := fetchContext prefix config workDir containersRequest n in
  let notFound :=
    fmt_Errorf ("Could not find internal IP address for node " +:+ v1.Name n +:+ " ") in
  let wrapped := fmt_Errorf ("problem getting node address: " +:+ Error notFound) in
  ClientsetNodeSource_NodeAddress n = (EmptyString, 0, Some notFound) ∧
  directNodeFetch nodeSource config n nd s = (Ret (Some wrapped), s) ∧
  (nodeRetrievalMethod config = direct → ¬ FargateLabelled n →
   downloadNodeData_node prefix config workDir nodeSource containersRequest fl n s =
     let fl' := <[v1.Name n := directFailedNote wrapped]> (providerNote fl n) in
     match proxyNodeFetch nd config s with
     | (Ret (Some e), s') => (Ret (<[v1.Name n := proxyFailedNote e]> fl'), s')
     | (Ret None, s') => (Ret fl', s')
     | (Panic msg, s') => (Panic msg, s')
     end).
Proof.
  intros Hno nodeSource nd notFound wrapped.
  assert (ClientsetNodeSource_NodeAddress n = (EmptyString, 0, Some notFound)) as Haddr.
  { unfold ClientsetNodeSource_NodeAddress. rewrite (NodeAddress_loop_none _ Hno).
    reflexivity. }
  assert (∀ s0, directNodeFetch nodeSource config n nd s0 = (Ret (Some wrapped), s0))
    as Hdirect.
  { intros [x m]. unfold directNodeFetch. subst nodeSource. run. rewrite Haddr.
    reflexivity. }
  split; [exact Haddr|]. split; [apply Hdirect|].
  intros Hmode Hnf. rewrite downloadNodeData_node_run. cbv zeta.
  destruct (decide (nodeRetrievalMethod config = direct)); [|contradiction].
  rewrite (fargateb_false n Hnf), Hdirect, isFargateNode_run, (fargateb_false n Hnf).
  destruct s; reflexivity.
Qed.

(** C2, as the code has it: in a Direct cycle, a node that is not a
    Fargate node and whose direct fetch fails has an entry in the report
    that [downloadNodeData] returns, also when its proxy fetch succeeds:
    the entry is then the note of the direct failure, unless a later node
    of the listing bears the same name. *)
Theorem direct_failure_stays_in_report `{Oracles W} (prefix : string)
    (config : KubeAgentConfig W) (workDir : os_File) (nodeSource : NodeSource W)
    (s : State W) (pre post : list v1.Node) (n : v1.Node) (x0 : Extern W)
    (fl1 : gmap string error) (s1 s1' s2 : State W) (e : error) :
  let containersRequest := fst buildContainersRequest in
  let nd := fetchContext prefix config workDir containersRequest n in
  nodeRetrievalMethod config = direct →
  ¬ FargateLabelled n →
  RetryOnConflict DefaultBackoff (GetReadyNodes nodeSource) (ext s)
    = (pre ++ n :: post, None, x0) →
  downloadNodeData_loop prefix config workDir nodeSource containersRequest pre ∅
    {| ext := x0; masks := masks s |} = (Ret fl1, s1) →
  directNodeFetch nodeSource config n nd s1 = (Ret (Some e), s1') →
  proxyNodeFetch nd config s1' = (Ret None, s2) →
  ∃ report sf,
    downloadNodeData prefix config workDir nodeSource s = (Ret (Some report, None), sf) ∧
    is_Some (report !! v1.Name n) ∧
    (v1.Name n ∉ map v1.Name post → report !! v1.Name n = Some (directFailedNote e)).
Proof.
  intros creq nd Hmode Hnf Hlist Hpre Hdirect Hproxy.
  rewrite downloadNodeData_run, Hlist, downloadNodeData_loop_app.
  fold creq. rewrite Hpre. cbn [downloadNodeData_loop]. run.
  rewrite downloadNodeData_node_run. cbv zeta. fold creq nd.
  destruct (decide (nodeRetrievalMethod config = direct)); [|contradiction].
  rewrite (fargateb_false n Hnf), isFargateNode_run, (fargateb_false n Hnf).
  cbn [snd].
  replace {| ext := ext s1; masks := masks s1 |} with s1 by (destruct s1; reflexivity).
  rewrite Hdirect, Hproxy.
  destruct (downloadNodeData_loop_frame prefix config workDir nodeSource creq post
              (<[v1.Name n := directFailedNote e]> (providerNote fl1 n)) s2)
    as (report & sf & Hrun & _ & Hkeep & Hother).
  rewrite Hrun. exists report, sf. split; [reflexivity|]. split.
  - apply Hkeep. rewrite lookup_insert_eq. eauto.
  - intros Hfresh. rewrite (Hother _ Hfresh). apply lookup_insert_eq.
Qed.

(** ** Connectivity prober *)

Lemma SetAvailable_run {W} (l : nat) (e : Endpoint) (b : bool) (s : State W) :
  SetAvailable (Some l) e b s =
    (Ret tt, {| ext := ext s;
                masks := <[l := if b then {[e]} ∪ masks s l else masks s l ∖ {[e]}]> (masks s) |}).
Proof. reflexivity. Qed.

Lemma elem_of_set_available (e e' : Endpoint) (b : bool) (X : gset Endpoint) :
  e' ∈ (if b then {[e]} ∪ X else X ∖ {[e]}) ↔ (e' = e ∧ b = true) ∨ (e' ≠ e ∧ e' ∈ X).
Proof.
  destruct b; [rewrite elem_of_union, elem_of_singleton
              | rewrite elem_of_difference, elem_of_singleton];
    destruct (decide (e' = e)); intuition congruence.
Qed.

(** C3: on a candidate with a mask map, when the probes answer without
    error, [testNodeConn] succeeds exactly when StatsSummary is reachable
    and CAdvisor or Container is, Container counting as unreachable and
    not being probed when container statistics are not configured; the
    answers are recorded in the mask; and the first error of a probe is
    returned at once, with success false, after that probe. *)
Theorem testNodeConn_success_rule `{Oracles W} (config : KubeAgentConfig W)
    (client : http_Client) (l : nat) (nodeStatSum containerStats cadvisorMetrics : string)
    (s : State W) (ns cm cs : bool) (e1 e2 e3 : option error) (w1 w2 w3 : W) :
  probeAnswer config client nodeStatSum MethodGet (world (ext s)) = ((ns, e1), w1) →
  probeAnswer config client cadvisorMetrics MethodGet w1 = ((cm, e2), w2) →
  probeAnswer config client containerStats MethodPost w2 = ((cs, e3), w3) →
  let run := testNodeConn config client (Some l) nodeStatSum containerStats cadvisorMetrics s in
  let evSummary := probeEvent config client nodeStatSum MethodGet in
  let evCadvisor := probeEvent config client cadvisorMetrics MethodGet in
  let evContainer := probeEvent config client containerStats MethodPost in
  let logged e b := EvLog (LogAvailability e b) in
  (* no probe fails *)
  (e1 = None → e2 = None → (RetrieveStatsContainer config = true → e3 = None) →
   let container := RetrieveStatsContainer config && cs in
   ∃ success s',
     run = (Ret (success, None), s') ∧
     (success = true ↔ ns = true ∧ (cm = true ∨ container = true)) ∧
     (NodeStatsSummaryEndpoint ∈ masks s' l ↔ ns = true) ∧
     (NodeCadvisorEndpoint ∈ masks s' l ↔ cm = true) ∧
     (RetrieveStatsContainer config = true →
        (NodeContainerEndpoint ∈ masks s' l ↔ cs = true) ∧
        world (ext s') = w3 ∧
        trace (ext s') = trace (ext s) ++
          [evSummary; logged NodeStatsSummaryEndpoint ns;
           evCadvisor; logged NodeCadvisorEndpoint cm;
           evContainer; logged NodeContainerEndpoint cs]) ∧
     (RetrieveStatsContainer config = false →
        world (ext s') = w2 ∧
        trace (ext s') = trace (ext s) ++
          [evSummary; logged NodeStatsSummaryEndpoint ns;
           evCadvisor; logged NodeCadvisorEndpoint cm])) ∧
  (* the first probe fails *)
  (∀ e, e1 = Some e →
     run = (Ret (false, Some e),
            {| ext := {| world := w1; trace := trace (ext s) ++ [evSummary] |};
               masks := masks s |})) ∧
  (* the second probe fails *)
  (∀ e, e1 = None → e2 = Some e →
     ∃ s', run = (Ret (false, Some e), s') ∧
           world (ext s') = w2 ∧
           trace (ext s') = trace (ext s) ++
             [evSummary; logged NodeStatsSummaryEndpoint ns; evCadvisor]) ∧
  (* the third probe fails *)
  (∀ e, e1 = None → e2 = None → RetrieveStatsContainer config = true → e3 = Some e →
     ∃ s', run = (Ret (false, Some e), s') ∧
           world (ext s') = w3 ∧
           trace (ext s') = trace (ext s) ++
             [evSummary; logged NodeStatsSummaryEndpoint ns;
              evCadvisor; logged NodeCadvisorEndpoint cm; evContainer]).
Proof.
  unfold probeAnswer, probeEvent. intros H1 H2 H3. cbv zeta.
  unfold testNodeConn, TestHTTPConnection. run. rewrite H1.
  split; [|split; [|split]].
  - intros -> -> He3. simpl. rewrite H2. simpl.
    destruct (RetrieveStatsContainer config) eqn:Hrsc; simpl.
    + rewrite H3, (He3 eq_refl). simpl.
      eexists _, _. split; [reflexivity|]. simpl.
      rewrite !fn_lookup_insert, !elem_of_set_available.
      repeat split; try discriminate; try (destruct ns, cm, cs; simpl; intuition congruence).
      rewrite <- !app_assoc. reflexivity.
    + eexists _, _. split; [reflexivity|]. simpl.
      rewrite !fn_lookup_insert, !elem_of_set_available.
      repeat split; try discriminate; try (destruct ns, cm, cs; simpl; intuition congruence).
      rewrite <- !app_assoc. reflexivity.
  - intros e ->. reflexivity.
  - intros e -> ->. simpl. rewrite H2. simpl.
    eexists. split; [reflexivity|]. simpl. rewrite <- !app_assoc. split; reflexivity.
  - intros e -> -> Hrsc ->. simpl. rewrite H2. simpl. rewrite Hrsc. simpl. rewrite H3. simpl.
    eexists. split; [reflexivity|]. simpl. rewrite <- !app_assoc. split; reflexivity.
Qed.

(** On the nil map the first reachable endpoint makes the probe panic. *)
Lemma testNodeConn_nil_mask `{Oracles W} (config : KubeAgentConfig W)
    (client : http_Client) (nodeStatSum containerStats cadvisorMetrics : string)
    (s : State W) (w1 : W) :
  probeAnswer config client nodeStatSum MethodGet (world (ext s)) = ((true, None), w1) →
  ∃ msg s', testNodeConn config client None nodeStatSum containerStats cadvisorMetrics s
            = (Panic msg, s').
Proof.
  unfold probeAnswer. intros H1. unfold testNodeConn, TestHTTPConnection. run.
  rewrite H1. simpl. eexists _, _. reflexivity.
Qed.

(** C10: when container statistics are not configured, [testNodeConn]
    leaves the Container entry of every mask map as it was, so an entry
    that marked Container available in the supplied mask still does; no
    Container probe is made; and no other mask map than the supplied one
    changes. *)
Theorem testNodeConn_keeps_container_entry `{Oracles W} (config : KubeAgentConfig W)
    (client : http_Client) (mask : EndpointMask)
    (nodeStatSum containerStats cadvisorMetrics : string) (s : State W) :
  RetrieveStatsContainer config = false →
  let s' := snd (testNodeConn config client mask nodeStatSum containerStats
                   cadvisorMetrics s) in
  (∀ l, NodeContainerEndpoint ∈ masks s' l ↔ NodeContainerEndpoint ∈ masks s l) ∧
  availableIn s' mask NodeContainerEndpoint = availableIn s mask NodeContainerEndpoint ∧
  (∀ l, mask ≠ Some l → masks s' l = masks s l) ∧
  (∃ evs, trace (ext s') = trace (ext s) ++ evs ∧
          probeEvent config client containerStats MethodPost ∉ evs).
Proof.
  intros Hrsc.
  assert (∀ l l' b1 b2 (m : nat → gset Endpoint),
            NodeContainerEndpoint ∈
              <[l := if b2 : bool then {[NodeCadvisorEndpoint]} ∪
                       <[l := if b1 : bool then {[NodeStatsSummaryEndpoint]} ∪ m l
                              else m l ∖ {[NodeStatsSummaryEndpoint]}]> m l
                     else <[l := if b1 : bool then {[NodeStatsSummaryEndpoint]} ∪ m l
                                 else m l ∖ {[NodeStatsSummaryEndpoint]}]> m l
                          ∖ {[NodeCadvisorEndpoint]}]>
                (<[l := if b1 : bool then {[NodeStatsSummaryEndpoint]} ∪ m l
                        else m l ∖ {[NodeStatsSummaryEndpoint]}]> m) l'
            ↔ NodeContainerEndpoint ∈ m l') as Htwo.
  { intros l l' b1 b2 m. destruct (decide (l = l')) as [<-|Hne].
    - rewrite !fn_lookup_insert, !elem_of_set_available. intuition congruence.
    - rewrite !fn_lookup_insert_ne by exact Hne. reflexivity. }
  assert (∀ l l' b1 (m : nat → gset Endpoint),
            NodeContainerEndpoint ∈
              <[l := if b1 : bool then {[NodeStatsSummaryEndpoint]} ∪ m l
                     else m l ∖ {[NodeStatsSummaryEndpoint]}]> m l'
            ↔ NodeContainerEndpoint ∈ m l') as Hone.
  { intros l l' b1 m. destruct (decide (l = l')) as [<-|Hne].
    - rewrite !fn_lookup_insert, !elem_of_set_available. intuition congruence.
    - rewrite !fn_lookup_insert_ne by exact Hne. reflexivity. }
  assert (∀ evs : list Event,
            Forall (λ ev, ev ≠ probeEvent config client containerStats MethodPost) evs →
            probeEvent config client containerStats MethodPost ∉ evs) as Hnotin.
  { intros evs Hall Hin. rewrite Forall_forall in Hall.
    apply list_elem_of_In in Hin. exact (Hall _ Hin eq_refl). }
  cbv zeta. unfold testNodeConn, TestHTTPConnection, availableIn.
  rewrite Hrsc.
  destruct mask as [l0|]; unfold SetAvailable; run.
  - case_probe; [| case_probe];
      (split; [intros l; first [apply Htwo | apply Hone | reflexivity] |]);
      (split; [apply bool_decide_ext; first [apply Htwo | apply Hone | reflexivity] |]);
      (split; [intros l Hne; rewrite ?fn_lookup_insert_ne by congruence; reflexivity |]);
      (eexists; split; [rewrite <- ?app_assoc; reflexivity |]);
      apply Hnotin; repeat constructor; discriminate.
  - case_probe;
      [| match goal with |- context [if ?b then _ else _] => destruct b end; simpl;
         [| case_probe;
            [| match goal with |- context [if ?b then _ else _] => destruct b end; simpl]]];
      (split; [intros l; reflexivity |]);
      (split; [reflexivity |]);
      (split; [intros l Hne; reflexivity |]);
      (eexists; split; [rewrite <- ?app_assoc; reflexivity |]);
      apply Hnotin; repeat constructor; discriminate.
Qed.

(** C6, as the code has it: after the listing and the address of the
    first node, when the direct probe (if allowed) and then the proxy
    probe both complete without error and without success, the returned
    configuration has mode Unreachable and node summaries disabled, and
    the error mentions the RBAC roles; when the allowed direct probe
    succeeds the mode is Direct and the run ends in the state that probe
    left, without a proxy probe; and when a probe returns an error, that
    error is returned at once with the mode and the node-summaries flag
    as they were. *)
Theorem ensureNodeSource_outcomes `{Oracles W} (config : KubeAgentConfig W) (s : State W)
    (firstNode : v1.Node) (rest : list v1.Node) (x1 x2 : Extern W)
    (ip : string) (port : Z) (allow : bool) :
  let config1 :=
    set_NodeClient (raw_NewClient nodeHTTPClient true (BearerToken config)
                      (CollectionRetryLimit config)) config in
  let d := directNodeEndpoints ip port in
  let p := proxyEndpoints (ClusterHostURL config1) (v1.Name firstNode) in
  let directProbe :=
    testNodeConn config1 nodeHTTPClient (DirectEndpointMask config1)
      (statsSummary d) (statsContainer d) (mCAdvisor d) in
  let proxyProbe :=
    testNodeConn config1 (HTTPClient config1) (ProxyEndpointMask config1)
      (statsSummary p) (statsContainer p) (mCAdvisor p) in
  let s2 := {| ext := x2; masks := masks s |} in
  ClientsetNodeSource_GetReadyNodes (NewClientsetNodeSource (Clientset config)) (ext s)
    = (firstNode :: rest, None, x1) →
  ClientsetNodeSource_NodeAddress firstNode = (ip, port, None) →
  allowDirectConnect config1 (firstNode :: rest) x1 = (allow, x2) →
  (* neither probe succeeds *)
  (∀ s3 s4,
     (if allow then directProbe s2 = (Ret (false, None), s3) else s3 = s2) →
     proxyProbe s3 = (Ret (false, None), s4) →
     ∃ config' err,
       ensureNodeSource config s = (Ret (config', Some err), s4) ∧
       nodeRetrievalMethod config' = unreachable ∧
       RetrieveNodeSummaries config' = false ∧
       strings_Contains (Error err) "verify RBAC roles" = true) ∧
  (* the direct probe succeeds *)
  (∀ s3,
     allow = true → directProbe s2 = (Ret (true, None), s3) →
     ∃ config',
       ensureNodeSource config s = (Ret (config', None), s3) ∧
       nodeRetrievalMethod config' = direct) ∧
  (* a probe returns an error *)
  (∀ s3 b e,
     allow = true → directProbe s2 = (Ret (b, Some e), s3) →
     ensureNodeSource config s = (Ret (config1, Some e), s3)) ∧
  (∀ s3 s4 b e,
     (if allow then directProbe s2 = (Ret (false, None), s3) else s3 = s2) →
     proxyProbe s3 = (Ret (b, Some e), s4) →
     ensureNodeSource config s = (Ret (config1, Some e), s4)).
Proof.
  intros config1 d p directProbe proxyProbe s2 Hlist Haddr Hallow.
  unfold ensureNodeSource. fold config1.
  unfold mbind, M_bind, bind, lift. rewrite Hlist. cbn beta iota.
  rewrite Haddr. cbn beta iota. cbn [ext masks]. rewrite Hallow.
  fold s2. subst d p directProbe proxyProbe. cbn beta iota.
  unfold mret, M_ret, ret.
  split; [|split; [|split]].
  - intros s3 s4 Hd Hp. destruct allow; [rewrite Hd; cbn beta iota | subst s3];
      rewrite Hp; cbn beta iota; eexists _, _; (split; [reflexivity|]);
      repeat split; vm_compute; reflexivity.
  - intros s3 -> Hd. rewrite Hd. cbn beta iota. eexists. split; reflexivity.
  - intros s3 b e -> Hd. rewrite Hd. reflexivity.
  - intros s3 s4 b e Hd Hp. destruct allow; [rewrite Hd; cbn beta iota | subst s3];
      rewrite Hp; reflexivity.
Qed.

(** ** Closed instances *)

(** C2, as stated, fails on the scenario of the spec: nodes A, B and C
    (C a Fargate node), mode Direct, B's direct fetch refused and its
    proxy fetch successful.  The report has an entry for B. *)
Lemma downloadNodeData_reports_recovered_node :
  let config := Fixture.config Fixture.cluster direct true in
  let s := Fixture.state Fixture.allEndpoints Fixture.allEndpoints in
  let nd := fetchContext "stats" config "samples" (fst buildContainersRequest)
              Fixture.nodeB in
  let run := @downloadNodeData unit Fixture.directToBFails "stats" config "samples"
               Fixture.clusterSource s in
  nodeRetrievalMethod config = direct ∧
  ¬ FargateLabelled Fixture.nodeB ∧
  (∀ s0 : State unit,
     masks s0 = masks s →
     fst (@directNodeFetch unit Fixture.directToBFails Fixture.clusterSource config
            Fixture.nodeB nd s0) = Ret (Some Fixture.refused) ∧
     fst (@proxyNodeFetch unit Fixture.directToBFails nd config s0) = Ret None) ∧
  fst run = Ret (Some {[ "node-b" := directFailedNote Fixture.refused ]}, None).
Proof.
  cbv zeta. split; [reflexivity|]. split; [vm_compute; discriminate|]. split.
  - intros [x m] Hm. simpl in Hm. subst m. split; vm_compute; reflexivity.
  - vm_compute. reflexivity.
Qed.

(** The amended C2 on the same scenario. *)
Lemma direct_failure_stays_in_report_witness :
  let config := Fixture.config Fixture.cluster direct true in
  let s := Fixture.state Fixture.allEndpoints Fixture.allEndpoints in
  ∃ report sf,
    @downloadNodeData unit Fixture.directToBFails "stats" config "samples"
      Fixture.clusterSource s = (Ret (Some report, None), sf) ∧
    is_Some (report !! "node-b") ∧
    ("node-b" ∉ map v1.Name [Fixture.nodeC] →
     report !! "node-b" = Some (directFailedNote Fixture.refused)).
Proof.
  cbv zeta.
  pose (config := Fixture.config Fixture.cluster direct true).
  pose (s := Fixture.state Fixture.allEndpoints Fixture.allEndpoints).
  pose (nd := fetchContext "stats" config "samples" (fst buildContainersRequest)
                Fixture.nodeB).
  pose (x0 := snd (RetryOnConflict DefaultBackoff (GetReadyNodes Fixture.clusterSource)
                     (ext s))).
  pose (s1 := snd (@downloadNodeData_loop unit Fixture.directToBFails "stats" config
                     "samples" Fixture.clusterSource (fst buildContainersRequest)
                     [Fixture.nodeA] ∅ {| ext := x0; masks := masks s |})).
  pose (s1' := snd (@directNodeFetch unit Fixture.directToBFails Fixture.clusterSource
                      config Fixture.nodeB nd s1)).
  pose (s2 := snd (@proxyNodeFetch unit Fixture.directToBFails nd config s1')).
  apply (@direct_failure_stays_in_report unit Fixture.directToBFails "stats"
           config "samples" Fixture.clusterSource s
           [Fixture.nodeA] [Fixture.nodeC] Fixture.nodeB x0 ∅ s1 s1' s2 Fixture.refused).
  - reflexivity.
  - vm_compute. discriminate.
  - vm_compute. reflexivity.
  - vm_compute. reflexivity.
  - vm_compute. reflexivity.
  - vm_compute. reflexivity.
Defined.

(** C5 on a node whose cadvisor endpoint refuses: the summary is fetched,
    the cadvisor error comes back, the container endpoint is not asked. *)
Lemma retrieveNodeData_first_error_aborts_witness :
  let config := Fixture.config Fixture.cluster direct true in
  let s := Fixture.state Fixture.allEndpoints Fixture.allEndpoints in
  let nd := fetchContext "stats" config "samples" (fst buildContainersRequest)
              Fixture.nodeA in
  let api := proxyEndpoints "https://api" "node-a" in
  ∃ s', @retrieveNodeData unit Fixture.cadvisorFails _ _ nd Fixture.inClusterClient
          (Some 1%nat) api s = (Ret (Some Fixture.refused), s') ∧
        world (ext s') = tt ∧
        trace (ext s') = trace (ext s) ++
          attemptEvents nd Fixture.inClusterClient api
            [NodeStatsSummaryEndpoint; NodeCadvisorEndpoint] ∧
        endpointEvent nd Fixture.inClusterClient api NodeContainerEndpoint ∉
          attemptEvents nd Fixture.inClusterClient api
            [NodeStatsSummaryEndpoint; NodeCadvisorEndpoint].
Proof.
  cbv zeta.
  refine (proj2 (proj2 (@retrieveNodeData_first_error_aborts unit Fixture.cadvisorFails _ _
           (fetchContext "stats" (Fixture.config Fixture.cluster direct true) "samples"
              (fst buildContainersRequest) Fixture.nodeA)
           Fixture.inClusterClient (Some 1%nat) (proxyEndpoints "https://api" "node-a")
           (Fixture.state Fixture.allEndpoints Fixture.allEndpoints)))
           tt tt Fixture.refused _ _ _ _).
  - vm_compute. reflexivity.
  - vm_compute. reflexivity.
  - vm_compute. reflexivity.
  - vm_compute. reflexivity.
Defined.

(** C7 on a cluster whose only node has no condition: the listing
    succeeds, no node is retained, the cycle returns the nil map and the
    error. *)
Lemma downloadNodeData_listing_failure_witness :
  let config := Fixture.config [Fixture.nodeN] direct true in
  let s := Fixture.state Fixture.allEndpoints Fixture.allEndpoints in
  let cns := NewClientsetNodeSource (Fixture.listing [Fixture.nodeN]) in
  let zero := fmt_Errorf "there were 0 nodes in a ready state" in
  ∃ x',
    ClientsetNodeSource_GetReadyNodes cns (ext s) = ([], Some zero, x') ∧
    @downloadNodeData unit Fixture.directToBFails "stats" config "samples"
      (ClientsetNodeSource_NodeSource cns) s
      = (Ret (None, Some (listingFailed zero)), {| ext := x'; masks := masks s |}) ∧
    world x' = tt ∧
    trace x' = trace (ext s) ++ EvListNodes :: map notReadyLog [Fixture.nodeN] ∧
    Forall (λ ev, isFetch ev = false) (EvListNodes :: map notReadyLog [Fixture.nodeN]).
Proof.
  cbv zeta.
  refine (proj2 (@downloadNodeData_listing_failure unit Fixture.directToBFails "stats"
           (Fixture.config [Fixture.nodeN] direct true) "samples"
           (Fixture.state Fixture.allEndpoints Fixture.allEndpoints))
           (Fixture.listing [Fixture.nodeN]) [Fixture.nodeN] tt _ _).
  - reflexivity.
  - reflexivity.
Defined.

(** C9 on a node that reports an external address only. *)
Lemma no_internal_ip_never_direct_witness :
  let config := Fixture.config [Fixture.nodeE] direct true in
  let s := Fixture.state Fixture.allEndpoints Fixture.allEndpoints in
  let nodeSource :=
    ClientsetNodeSource_NodeSource (NewClientsetNodeSource (Fixture.listing [Fixture.nodeE])) in
  let nd := fetchContext "stats" config "samples" (fst buildContainersRequest)
              Fixture.nodeE in
  let wrapped := fmt_Errorf
    "problem getting node address: Could not find internal IP address for node node-e " in
  @directNodeFetch unit Fixture.directToBFails nodeSource config Fixture.nodeE nd s
    = (Ret (Some wrapped), s).
Proof.
  cbv zeta.
  refine (proj1 (proj2 (@no_internal_ip_never_direct unit Fixture.directToBFails "stats"
           (Fixture.config [Fixture.nodeE] direct true) "samples"
           (fst buildContainersRequest) (Fixture.listing [Fixture.nodeE]) ∅ Fixture.nodeE
           (Fixture.state Fixture.allEndpoints Fixture.allEndpoints) _))).
  repeat constructor. discriminate.
Defined.

(** C3 on a candidate whose three endpoints are reachable. *)
Lemma testNodeConn_success_rule_witness :
  let config := Fixture.config Fixture.cluster direct true in
  let s := Fixture.state ∅ ∅ in
  ∃ success s',
    @testNodeConn unit Fixture.directToBFails config nodeHTTPClient (Some 0%nat)
      "https://10.0.0.1:10250/stats/summary" "https://10.0.0.1:10250/stats/container/"
      "https://10.0.0.1:10250/metrics/cadvisor" s = (Ret (success, None), s') ∧
    success = true ∧
    NodeStatsSummaryEndpoint ∈ masks s' 0%nat ∧
    NodeCadvisorEndpoint ∈ masks s' 0%nat ∧
    NodeContainerEndpoint ∈ masks s' 0%nat.
Proof.
  cbv zeta.
  destruct (@testNodeConn_success_rule unit Fixture.directToBFails
              (Fixture.config Fixture.cluster direct true) nodeHTTPClient 0%nat
              "https://10.0.0.1:10250/stats/summary"
              "https://10.0.0.1:10250/stats/container/"
              "https://10.0.0.1:10250/metrics/cadvisor"
              (Fixture.state ∅ ∅) true true true None None None tt tt tt
              eq_refl eq_refl eq_refl) as [Hok _].
  destruct (Hok eq_refl eq_refl (λ _, eq_refl))
    as (success & s' & Hrun & Hiff & Hs & Hc & Hcont & _).
  exists success, s'. split; [exact Hrun|].
  split; [apply Hiff; auto|]. split; [apply Hs; reflexivity|].
  split; [apply Hc; reflexivity|]. apply (proj1 (Hcont eq_refl)). reflexivity.
Defined.

(** C10 on a mask that marks Container available before the probe. *)
Lemma testNodeConn_keeps_container_entry_witness :
  let config := Fixture.config Fixture.cluster direct false in
  let s := Fixture.state {[ NodeContainerEndpoint ]} ∅ in
  let s' := snd (@testNodeConn unit Fixture.nothingReachable config nodeHTTPClient
                   (Some 0%nat) "https://10.0.0.1:10250/stats/summary"
                   "https://10.0.0.1:10250/stats/container/"
                   "https://10.0.0.1:10250/metrics/cadvisor" s) in
  availableIn s (Some 0%nat) NodeContainerEndpoint = true ∧
  availableIn s' (Some 0%nat) NodeContainerEndpoint = true.
Proof.
  cbv zeta. split; [vm_compute; reflexivity|].
  rewrite (proj1 (proj2 (@testNodeConn_keeps_container_entry unit Fixture.nothingReachable
             (Fixture.config Fixture.cluster direct false) nodeHTTPClient (Some 0%nat)
             "https://10.0.0.1:10250/stats/summary"
             "https://10.0.0.1:10250/stats/container/"
             "https://10.0.0.1:10250/metrics/cadvisor"
             (Fixture.state {[ NodeContainerEndpoint ]} ∅) eq_refl))).
  vm_compute. reflexivity.
Defined.

(** C6, as stated, fails when the proxy probe meets a transport error:
    the direct probe is allowed and completes without success, the proxy
    probe returns without success, and the configuration comes back with
    the mode and the node-summaries flag it had, with the error of the
    transport. *)
Lemma ensureNodeSource_probe_error_keeps_mode :
  let config := Fixture.config [Fixture.nodeA] proxy false in
  let s := Fixture.state ∅ ∅ in
  let config1 := set_NodeClient (raw_NewClient nodeHTTPClient true "token" 1) config in
  let s1 := {| ext := {| world := tt; trace := [EvListNodes] |}; masks := masks s |} in
  let d := directNodeEndpoints "10.0.0.1" 10250 in
  let p := proxyEndpoints "https://api" "node-a" in
  let directProbe :=
    @testNodeConn unit Fixture.proxyProbeErrors config1 nodeHTTPClient
      (DirectEndpointMask config1) (statsSummary d) (statsContainer d) (mCAdvisor d) in
  let proxyProbe :=
    @testNodeConn unit Fixture.proxyProbeErrors config1 (HTTPClient config1)
      (ProxyEndpointMask config1) (statsSummary p) (statsContainer p) (mCAdvisor p) in
  allowDirectConnect config1 [Fixture.nodeA] (ext s1) = (true, ext s1) ∧
  fst (directProbe s1) = Ret (false, None) ∧
  fst (proxyProbe (snd (directProbe s1))) = Ret (false, Some Fixture.refused) ∧
  fst (@ensureNodeSource unit Fixture.proxyProbeErrors config s)
    = Ret (config1, Some Fixture.refused) ∧
  nodeRetrievalMethod config1 = proxy ∧
  nodeRetrievalMethod config1 ≠ unreachable ∧
  RetrieveNodeSummaries config1 = true ∧
  strings_Contains (Error Fixture.refused) "verify RBAC roles" = false.
Proof.
  cbv zeta. repeat split; try (vm_compute; reflexivity). discriminate.
Qed.

(** The amended C6 on a cluster where no endpoint is reachable. *)
Lemma ensureNodeSource_outcomes_witness :
  let config := Fixture.config [Fixture.nodeA] proxy false in
  let s := Fixture.state ∅ ∅ in
  ∃ config' err s4,
    @ensureNodeSource unit Fixture.nothingReachable config s
      = (Ret (config', Some err), s4) ∧
    nodeRetrievalMethod config' = unreachable ∧
    RetrieveNodeSummaries config' = false ∧
    strings_Contains (Error err) "verify RBAC roles" = true.
Proof.
  cbv zeta.
  pose (config := Fixture.config [Fixture.nodeA] proxy false).
  pose (config1 := set_NodeClient (raw_NewClient nodeHTTPClient true "token" 1) config).
  pose (s := Fixture.state ∅ ∅).
  pose (x1 := {| world := tt; trace := [EvListNodes] |} : Extern unit).
  pose (d := directNodeEndpoints "10.0.0.1" 10250).
  pose (p := proxyEndpoints "https://api" "node-a").
  pose (s3 := snd (@testNodeConn unit Fixture.nothingReachable config1 nodeHTTPClient
                     (DirectEndpointMask config1) (statsSummary d) (statsContainer d)
                     (mCAdvisor d) {| ext := x1; masks := masks s |})).
  pose (s4 := snd (@testNodeConn unit Fixture.nothingReachable config1 (HTTPClient config1)
                     (ProxyEndpointMask config1) (statsSummary p) (statsContainer p)
                     (mCAdvisor p) s3)).
  destruct (proj1 (@ensureNodeSource_outcomes unit Fixture.nothingReachable config s
                     Fixture.nodeA [] x1 x1 "10.0.0.1" 10250 true
                     eq_refl eq_refl eq_refl) s3 s4)
    as (config' & err & Hrun & Hmode & Hflag & Hmsg).
  - vm_compute. reflexivity.
  - vm_compute. reflexivity.
  - exists config', err, s4. auto.
Defined.

(** * Further properties of the code *)

(** ** Node directory *)

Lemma getNodeCondition_from_first conds i0 ty :
  0 <= i0 →
  match getNodeCondition_from conds i0 ty with
  | (i, Some c) =>
      i0 <= i ∧ conds !! Z.to_nat (i - i0) = Some c ∧ v1.Type_ c = ty ∧
      Forall (λ c', v1.Type_ c' ≠ ty) (take (Z.to_nat (i - i0)) conds)
  | (i, None) => i = -1 ∧ Forall (λ c', v1.Type_ c' ≠ ty) conds
  end.
Proof.
  revert i0. induction conds as [|c rest IH]; intros i0 Hi0; simpl.
  - split; [reflexivity | constructor].
  - destruct (String.eqb_spec (v1.Type_ c) ty) as [Heq|Hne].
    + rewrite Z.sub_diag. simpl. repeat split; [lia | exact Heq | constructor].
    + specialize (IH (i0 + 1) ltac:(lia)).
      destruct (getNodeCondition_from rest (i0 + 1) ty) as [i [c'|]].
      * destruct IH as (Hle & Hlook & Hty & Hbefore).
        replace (Z.to_nat (i - i0)) with (S (Z.to_nat (i - (i0 + 1)))) by lia.
        simpl. repeat split; [lia | exact Hlook | exact Hty |].
        constructor; assumption.
      * destruct IH as [-> Hall]. split; [reflexivity|]. constructor; assumption.
Qed.

(** [getNodeCondition] returns the index and the value of the first
    condition of the given type: the index is within the list and no
    earlier condition has that type; without such a condition, or on a
    nil status, it returns -1 and nil. *)
Theorem getNodeCondition_first_match (status : option v1.NodeStatus) (ty : string) :
  match getNodeCondition status ty with
  | (i, Some c) =>
      ∃ st, status = Some st ∧
            0 <= i < Z.of_nat (length (v1.Conditions st)) ∧
            v1.Conditions st !! Z.to_nat i = Some c ∧
            v1.Type_ c = ty ∧
            Forall (λ c', v1.Type_ c' ≠ ty) (take (Z.to_nat i) (v1.Conditions st))
  | (i, None) =>
      i = -1 ∧
      ∀ st, status = Some st → Forall (λ c', v1.Type_ c' ≠ ty) (v1.Conditions st)
  end.
Proof.
  destruct status as [st|]; simpl.
  - pose proof (getNodeCondition_from_first (v1.Conditions st) 0 ty ltac:(lia)) as Hf.
    destruct (getNodeCondition_from (v1.Conditions st) 0 ty) as [i [c|]].
    + rewrite Z.sub_0_r in Hf. destruct Hf as (Hle & Hlook & Hty & Hbefore).
      exists st. split; [reflexivity|]. split; [|auto].
      split; [exact Hle|]. apply lookup_lt_Some in Hlook. lia.
    + destruct Hf as [-> Hall]. split; [reflexivity|]. intros st' [= <-]. exact Hall.
  - split; [reflexivity|]. intros st [=].
Qed.

Lemma NodeAddress_loop_first addrs :
  match NodeAddress_loop addrs with
  | Some ip =>
      ∃ pre a post, addrs = pre ++ a :: post ∧
        v1.AddrType a = v1.NodeInternalIP ∧ v1.Address a = ip ∧
        Forall (λ b, v1.AddrType b ≠ v1.NodeInternalIP) pre
  | None => Forall (λ b, v1.AddrType b ≠ v1.NodeInternalIP) addrs
  end.
Proof.
  induction addrs as [|a rest IH]; simpl; [constructor|].
  destruct (String.eqb_spec (v1.AddrType a) v1.NodeInternalIP) as [Heq|Hne].
  - exists [], a, rest. repeat split; [exact Heq | constructor].
  - destruct (NodeAddress_loop rest) as [ip|].
    + destruct IH as (pre & b & post & -> & Hty & Hip & Hpre).
      exists (a :: pre), b, post. repeat split; [exact Hty | exact Hip |].
      constructor; assumption.
    + constructor; assumption.
Qed.

(** [NodeAddress] answers with the address of the first entry of type
    InternalIP, whatever precedes or follows it, and with the kubelet port
    of the node; it fails, with an empty address and port 0, exactly when
    the node has no such entry. *)
Theorem NodeAddress_first_internal_ip (node : v1.Node) :
  match ClientsetNodeSource_NodeAddress node with
  | (ip, port, None) =>
      port = v1.KubeletEndpoint_Port (v1.Status node) ∧
      ∃ pre a post, v1.Addresses (v1.Status node) = pre ++ a :: post ∧
        v1.AddrType a = v1.NodeInternalIP ∧ v1.Address a = ip ∧
        Forall (λ b, v1.AddrType b ≠ v1.NodeInternalIP) pre
  | (ip, port, Some e) =>
      ip = EmptyString ∧ port = 0 ∧ ¬ hasInternalIP node ∧
      Error e = "Could not find internal IP address for node " +:+ v1.Name node +:+ " "
  end.
Proof.
  unfold ClientsetNodeSource_NodeAddress.
  pose proof (NodeAddress_loop_first (v1.Addresses (v1.Status node))) as Hf.
  destruct (NodeAddress_loop (v1.Addresses (v1.Status node))) as [ip|].
  - split; [reflexivity | exact Hf].
  - repeat split. intros (a & Hin & Hty).
    rewrite Forall_forall in Hf. apply list_elem_of_In in Hin. exact (Hf a Hin Hty).
Qed.

Lemma filter_retained_length items :
  length (List.filter retained items) = length items ↔
  List.filter (λ n, negb (retained n)) items = [].
Proof.
  induction items as [|n rest IH]; simpl; [tauto|].
  pose proof (List.filter_length_le retained rest) as Hle.
  destruct (retained n); simpl.
  - rewrite <- IH. lia.
  - split; [lia | discriminate].
Qed.

(** [GetReadyNodes] either returns an error and no node, or no error and
    at least one node: a listing error comes back as it is, a listing
    without a retained node gives the error of zero ready nodes, and
    otherwise the retained nodes come back in the order of the listing. *)
Theorem GetReadyNodes_outcome {W} (cns : ClientsetNodeSource W) (x : Extern W) :
  let '(nodes, err, x') := ClientsetNodeSource_GetReadyNodes cns x in
  (err = None ↔ nodes ≠ []) ∧
  world x' = snd (Nodes_List (clientSet cns) (world x)) ∧
  match fst (Nodes_List (clientSet cns) (world x)) with
  | inl e => nodes = [] ∧ err = Some e ∧ trace x' = trace x ++ [EvListNodes]
  | inr items =>
      nodes `sublist_of` items ∧
      match err with
      | None => nodes = List.filter retained items
      | Some e => List.filter retained items = [] ∧
                  e = fmt_Errorf "there were 0 nodes in a ready state"
      end
  end.
Proof.
  rewrite GetReadyNodes_run.
  destruct (Nodes_List (clientSet cns) (world x)) as [[e|items] w']; simpl.
  - repeat split; try discriminate. intros Hne. contradiction.
  - destruct (List.filter retained items) as [|n0 ready0] eqn:Hf; simpl.
    + repeat split; try discriminate; try contradiction. apply sublist_nil_l.
    + repeat split; try discriminate. rewrite <- Hf.
      clear Hf. induction items as [|n rest IH]; simpl; [constructor|].
      destruct (retained n); [apply sublist_skip | apply sublist_cons]; exact IH.
Qed.

(** The log of [GetReadyNodes] on a listing that keeps a node: one line
    for each discarded node, in the order of the listing, and after them
    the line about nodes that are not ready exactly when a node was
    discarded. *)
Theorem GetReadyNodes_logs {W} (cns : ClientsetNodeSource W) (x : Extern W)
    (items : list v1.Node) (w' : W) :
  Nodes_List (clientSet cns) (world x) = (inr items, w') →
  List.filter retained items ≠ [] →
  let discarded := List.filter (λ n, negb (retained n)) items in
  trace (snd (ClientsetNodeSource_GetReadyNodes cns x)) =
    trace x ++ EvListNodes :: map notReadyLog discarded ++
    match discarded with
    | [] => []
    | _ :: _ => [EvLog LogSomeNodesNotReady]
    end.
Proof.
  intros Hl Hne. rewrite GetReadyNodes_run, Hl. cbv zeta.
  pose proof (filter_retained_length items) as Hlen.
  destruct (List.filter retained items) as [|n0 ready0] eqn:Hf; [contradiction|].
  cbn [snd trace].
  destruct (Nat.eqb_spec (length (n0 :: ready0)) (length items)) as [He|He]; cbn [negb].
  - rewrite (proj1 Hlen He). simpl. rewrite !app_nil_r. reflexivity.
  - destruct (List.filter (λ n, negb (retained n)) items) as [|d ds] eqn:Hd.
    + exfalso. apply He, Hlen. reflexivity.
    + rewrite <- !app_assoc. reflexivity.
Qed.

(** ** Endpoint availability mask *)

(** After [SetAvailable] on a mask map, [Available] of the same endpoint
    answers the flag that was set and changes nothing; the other
    endpoints of the map, the other maps and the outside are as they
    were. *)
Theorem SetAvailable_then_Available {W} (l : nat) (e : Endpoint) (b : bool) (s : State W) :
  let s' := snd (SetAvailable (Some l) e b s) in
  fst (SetAvailable (Some l) e b s) = Ret tt ∧
  Available (Some l) e s' = (Ret b, s') ∧
  (∀ e', e' ≠ e → availableIn s' (Some l) e' = availableIn s (Some l) e') ∧
  (∀ l' e', l' ≠ l → availableIn s' (Some l') e' = availableIn s (Some l') e') ∧
  ext s' = ext s.
Proof.
  cbv zeta. rewrite SetAvailable_run. cbn [fst snd]. split; [reflexivity|].
  rewrite Available_run. unfold availableIn. cbn [masks ext].
  split; [|split; [|split; [|reflexivity]]].
  - f_equal. f_equal. rewrite fn_lookup_insert.
    pose proof (elem_of_set_available e e b (masks s l)) as Hiff.
    destruct b; [apply bool_decide_eq_true | apply bool_decide_eq_false];
      intuition congruence.
  - intros e' Hne. apply bool_decide_ext.
    rewrite fn_lookup_insert, elem_of_set_available. intuition congruence.
  - intros l' e' Hne. rewrite fn_lookup_insert_ne by congruence. reflexivity.
Qed.

(** Of two writes of the same endpoint of a mask map the last one wins,
    and writes of different endpoints may be swapped: the masks mark the
    same endpoints available either way. *)
Theorem SetAvailable_last_write_wins {W} (l : nat) (e1 e2 : Endpoint) (b1 b2 : bool)
    (s : State W) :
  let set e b (s : State W) := snd (SetAvailable (Some l) e b s) in
  (∀ mask e', availableIn (set e1 b2 (set e1 b1 s)) mask e'
              = availableIn (set e1 b2 s) mask e') ∧
  (e1 ≠ e2 →
   ∀ mask e', availableIn (set e2 b2 (set e1 b1 s)) mask e'
              = availableIn (set e1 b1 (set e2 b2 s)) mask e').
Proof.
  cbv beta zeta. unfold SetAvailable. cbn [snd masks ext].
  split; [|intros Hne]; intros [l'|] e'; try reflexivity; unfold availableIn;
    cbn [masks]; apply bool_decide_ext;
    (destruct (decide (l = l')) as [<-|Hl];
     [rewrite !fn_lookup_insert, !elem_of_set_available; intuition congruence
     |rewrite !fn_lookup_insert_ne by exact Hl; reflexivity]).
Qed.

(** ** Naming *)

Lemma append_cancel (p a b : string) : p +:+ a = p +:+ b → a = b.
Proof. apply String.app_inj. Qed.

(** Under one prefix, the artifact names of the three endpoint kinds of
    all nodes are distinct: equal names come from the same kind and the
    same node name. *)
Theorem artifactName_injective (prefix n1 n2 : string) (e1 e2 : Endpoint) :
  artifactName {| prefix := prefix; nodeName := n1 |} e1
    = artifactName {| prefix := prefix; nodeName := n2 |} e2 →
  e1 = e2 ∧ n1 = n2.
Proof.
  destruct e1, e2; unfold artifactName, summary, container, cadvisorMetrics; simpl;
    intros Heq; apply append_cancel in Heq; cbv [String.append] in Heq;
    first [discriminate Heq | (split; [reflexivity|]; congruence)].
Qed.

Lemma artifactName_injective_witness :
  NodeCadvisorEndpoint = NodeCadvisorEndpoint ∧ "node-a" = "node-a".
Proof.
  apply (artifactName_injective "stats" "node-a" "node-a"
           NodeCadvisorEndpoint NodeCadvisorEndpoint).
  reflexivity.
Defined.

(** The three urls of a direct address builder are distinct, and so are
    the three urls of a proxy address builder: equal urls of one builder
    belong to the same endpoint. *)
Theorem endpointURL_injective (d : directNode) (p : proxyAPI) (e1 e2 : Endpoint) :
  endpointURL d e1 = endpointURL d e2 ∨ endpointURL p e1 = endpointURL p e2 →
  e1 = e2.
Proof.
  intros [Heq|Heq]; destruct e1, e2; try reflexivity; exfalso;
    unfold endpointURL in Heq; simpl in Heq;
    repeat apply append_cancel in Heq; cbv [String.append] in Heq;
    try discriminate Heq.
  all: repeat (apply append_cancel in Heq || (injection Heq as Heq));
    cbv [String.append] in Heq; try discriminate Heq.
Qed.

Lemma endpointURL_injective_witness : NodeContainerEndpoint = NodeContainerEndpoint.
Proof.
  apply (endpointURL_injective (directNodeEndpoints "10.0.0.1" 10250)
           (proxyEndpoints "https://api" "node-a")
           NodeContainerEndpoint NodeContainerEndpoint).
  left. reflexivity.
Defined.

(** ** Fetches *)

Lemma retrieveNodeData_nothing_available `{Oracles W} `{nodeAPI T} (nd : nodeFetchData)
    (c : raw_Client) (mask : EndpointMask) (api : T) (s : State W) :
  (∀ e, availableIn s mask e = false) →
  retrieveNodeData nd c mask api s = (Ret None, s).
Proof.
  intros Hnone. rewrite retrieveNodeData_visit. unfold fetchOrder.
  cbn [visitEndpoints]. run.
  repeat (rewrite Available_run, Hnone; cbn beta iota). reflexivity.
Qed.

(** With the node source of the cluster client, the direct fetch of a
    node that has an address asks the node client only, at the urls built
    from that address and the kubelet port, for a prefix of the endpoints
    that the Direct mask marks available, in the order of the fetch; it
    leaves the masks alone. *)
Theorem directNodeFetch_requests `{Oracles W} (cs : kubernetes_Interface W)
    (config : KubeAgentConfig W) (n : v1.Node) (nd : nodeFetchData) (s : State W)
    (ip : string) (port : Z) :
  ClientsetNodeSource_NodeAddress n = (ip, port, None) →
  ∃ r s' attempted,
    directNodeFetch (ClientsetNodeSource_NodeSource (NewClientsetNodeSource cs)) config n nd s
      = (Ret r, s') ∧
    attempted `prefix_of` List.filter (availableIn s (DirectEndpointMask config)) fetchOrder ∧
    trace (ext s') = trace (ext s) ++
      attemptEvents nd (NodeClient config) (directNodeEndpoints ip port) attempted ∧
    masks s' = masks s ∧
    (r = None →
     attempted = List.filter (availableIn s (DirectEndpointMask config)) fetchOrder).
Proof.
  intros Haddr. unfold directNodeFetch. run. rewrite Haddr. simpl.
  rewrite retrieveNodeData_visit.
  destruct (visitEndpoints_attempts nd (NodeClient config) (DirectEndpointMask config)
              (directNodeEndpoints ip port) fetchOrder
              {| ext := ext s; masks := masks s |})
    as (r & s' & att & Hrun & Hpre & Ht & Hm & Hall).
  exists r, s', att. split; [exact Hrun|].
  rewrite (filter_availableIn_masks s) in Hpre, Hall by reflexivity. auto.
Qed.

(** ** Cyclical fetch orchestrator *)

Lemma proxyNodeFetch_attempts `{Oracles W} (nd : nodeFetchData) (config : KubeAgentConfig W)
    (s : State W) :
  ∃ r s' attempted,
    proxyNodeFetch nd config s = (Ret r, s') ∧
    attempted `prefix_of` List.filter (availableIn s (ProxyEndpointMask config)) fetchOrder ∧
    trace (ext s') = trace (ext s) ++
      attemptEvents nd (InClusterClient config)
        (proxyEndpoints (ClusterHostURL config) (nd_nodeName nd)) attempted ∧
    masks s' = masks s.
Proof.
  unfold proxyNodeFetch. rewrite retrieveNodeData_visit.
  destruct (visitEndpoints_attempts nd (InClusterClient config) (ProxyEndpointMask config)
              (proxyEndpoints (ClusterHostURL config) (nd_nodeName nd)) fetchOrder s)
    as (r & s' & att & Hrun & Hpre & Ht & Hm & _).
  exists r, s', att. auto.
Qed.

(** When the mode is not Direct, or the node is a Fargate node, the body
    of the loop makes proxy requests only: whatever the node source, it
    asks the in-cluster client, at the proxy urls of the node, for a
    prefix of the endpoints that the Proxy mask marks available (after
    the log line of the Fargate check, when that check ran). *)
Theorem downloadNodeData_node_proxy_only `{Oracles W} (prefix : string)
    (config : KubeAgentConfig W) (workDir : os_File) (nodeSource : NodeSource W)
    (containersRequest : string) (fl : gmap string error) (n : v1.Node) (s : State W) :
  nodeRetrievalMethod config ≠ direct ∨ FargateLabelled n →
  let nd := fetchContext prefix config workDir containersRequest n in
  let fargateCheck :=
    if decide (nodeRetrievalMethod config = direct)
    then [EvLog (LogFargateNodeFound (v1.Name n))] else [] in
  ∃ fl' s' attempted,
    (∀ nodeSource' : NodeSource W,
       downloadNodeData_node prefix config workDir nodeSource' containersRequest fl n s
         = (Ret fl', s')) ∧
    attempted `prefix_of` List.filter (availableIn s (ProxyEndpointMask config)) fetchOrder ∧
    trace (ext s') = trace (ext s) ++ fargateCheck ++
      attemptEvents nd (InClusterClient config)
        (proxyEndpoints (ClusterHostURL config) (v1.Name n)) attempted.
Proof.
  intros Hcase nd fargateCheck. subst fargateCheck.
  destruct (decide (nodeRetrievalMethod config = direct)) as [Hd|Hd].
  - destruct Hcase as [Hnd|Hf]; [contradiction|].
    apply fargateb_iff in Hf.
    destruct (proxyNodeFetch_attempts nd config
                {| ext := snd (isFargateNode n (ext s)); masks := masks s |})
      as (r & s' & att & Hrun & Hpre & Ht & _).
    rewrite (filter_availableIn_masks s) in Hpre by reflexivity.
    rewrite isFargateNode_run, Hf in Ht. simpl in Ht.
    exists (match r with
            | Some e => <[v1.Name n := proxyFailedNote e]> (providerNote fl n)
            | None => providerNote fl n
            end), s', att. split; [|split; [exact Hpre|]].
    + intros ns'. rewrite downloadNodeData_node_run. cbv zeta. fold nd.
      destruct (decide (nodeRetrievalMethod config = direct)); [|contradiction].
      rewrite Hf, Hrun. destruct r; reflexivity.
    + rewrite Ht, <- app_assoc. reflexivity.
  - destruct (proxyNodeFetch_attempts nd config s) as (r & s' & att & Hrun & Hpre & Ht & _).
    exists (match r with
            | Some e => <[v1.Name n := proxyFailedNote e]> (providerNote fl n)
            | None => providerNote fl n
            end), s', att. split; [|split; [exact Hpre | exact Ht]].
    intros ns'. rewrite downloadNodeData_node_run. cbv zeta. fold nd.
    destruct (decide (nodeRetrievalMethod config = direct)); [contradiction|].
    rewrite Hrun. destruct r; reflexivity.
Qed.

(** When the direct fetch of a node fails and its proxy fetch fails too,
    the note of the proxy failure replaces the note of the direct failure
    (and the note of a missing provider ID): the entry of the node is the
    proxy note, and the entries of the other names are untouched. *)
Theorem downloadNodeData_node_proxy_note_overwrites `{Oracles W} (prefix : string)
    (config : KubeAgentConfig W) (workDir : os_File) (nodeSource : NodeSource W)
    (containersRequest : string) (fl : gmap string error) (n : v1.Node)
    (s s1 s2 : State W) (e1 e2 : error) :
  let nd := fetchContext prefix config workDir containersRequest n in
  nodeRetrievalMethod config = direct →
  ¬ FargateLabelled n →
  directNodeFetch nodeSource config n nd s = (Ret (Some e1), s1) →
  proxyNodeFetch nd config s1 = (Ret (Some e2), s2) →
  ∃ fl',
    downloadNodeData_node prefix config workDir nodeSource containersRequest fl n s
      = (Ret fl', s2) ∧
    fl' !! v1.Name n = Some (proxyFailedNote e2) ∧
    (∀ k, k ≠ v1.Name n → fl' !! k = fl !! k).
Proof.
  intros nd Hmode Hnf Hdirect Hproxy.
  rewrite downloadNodeData_node_run. cbv zeta. fold nd.
  destruct (decide (nodeRetrievalMethod config = direct)); [|contradiction].
  rewrite (fargateb_false n Hnf), isFargateNode_run, (fargateb_false n Hnf). cbn [snd].
  replace {| ext := ext s; masks := masks s |} with s by (destruct s; reflexivity).
  rewrite Hdirect, Hproxy. eexists. split; [reflexivity|]. split.
  - apply lookup_insert_eq.
  - intros k Hk. rewrite !lookup_insert_ne by congruence.
    apply (extendsAt_providerNote fl n). exact Hk.
Qed.

(** After the body of the loop the node has no entry in the failure map
    exactly when it had none before, its provider ID is not empty, and
    the first fetch that was tried for it (the direct one in Direct mode
    for a node that is not a Fargate node, the proxy one otherwise)
    returned no error. *)
Theorem downloadNodeData_node_absent_iff `{Oracles W} (prefix : string)
    (config : KubeAgentConfig W) (workDir : os_File) (nodeSource : NodeSource W)
    (containersRequest : string) (fl : gmap string error) (n : v1.Node) (s : State W) :
  let nd := fetchContext prefix config workDir containersRequest n in
  let s0 := if decide (nodeRetrievalMethod config = direct)
            then {| ext := snd (isFargateNode n (ext s)); masks := masks s |} else s in
  let firstFetch :=
    if decide (nodeRetrievalMethod config = direct) then
      if fargateb n then proxyNodeFetch nd config s0
      else directNodeFetch nodeSource config n nd s0
    else proxyNodeFetch nd config s0 in
  ∃ fl' s',
    downloadNodeData_node prefix config workDir nodeSource containersRequest fl n s
      = (Ret fl', s') ∧
    (fl' !! v1.Name n = None ↔
       fl !! v1.Name n = None ∧ v1.Spec_ProviderID n ≠ EmptyString ∧
       fst firstFetch = Ret None).
Proof.
  intros nd s0 firstFetch. subst s0 firstFetch.
  rewrite downloadNodeData_node_run. cbv zeta. fold nd.
  assert (providerNote fl n !! v1.Name n = None ↔
          fl !! v1.Name n = None ∧ v1.Spec_ProviderID n ≠ EmptyString) as Hnote.
  { unfold providerNote.
    destruct (String.eqb_spec (v1.Spec_ProviderID n) EmptyString) as [Heq|Hne].
    - rewrite lookup_insert_eq. split; [discriminate | intros [_ Hc]; contradiction].
    - tauto. }
  assert (∀ (fl0 : gmap string error) (s1 : State W),
            (fl0 !! v1.Name n = None ↔
               fl !! v1.Name n = None ∧ v1.Spec_ProviderID n ≠ EmptyString) →
            ∃ fl' s',
              match proxyNodeFetch nd config s1 with
              | (Ret (Some e), s') => (Ret (<[v1.Name n := proxyFailedNote e]> fl0), s')
              | (Ret None, s') => (Ret fl0, s')
              | (Panic msg, s') => (Panic msg, s')
              end = (Ret fl', s') ∧
              (fl' !! v1.Name n = None ↔
                 fl !! v1.Name n = None ∧ v1.Spec_ProviderID n ≠ EmptyString ∧
                 fst (proxyNodeFetch nd config s1) = Ret None)) as Hproxy.
  { intros fl0 s1 Hfl0.
    destruct (proxyNodeFetch_frame nd config s1) as (r & s' & evs & Hrun & _).
    rewrite Hrun. destruct r as [e|]; eexists _, s'; (split; [reflexivity|]); simpl.
    - rewrite lookup_insert_eq. split; [discriminate | intros (_ & _ & [=])].
    - rewrite Hfl0. tauto. }
  destruct (decide (nodeRetrievalMethod config = direct)) as [Hd|Hd].
  - destruct (fargateb n); [apply Hproxy, Hnote|].
    destruct (directNodeFetch_frame nodeSource config n nd
                {| ext := snd (isFargateNode n (ext s)); masks := masks s |})
      as (r & s1 & Hrun & _).
    rewrite Hrun. destruct r as [e|]; simpl.
    + destruct (proxyNodeFetch_frame nd config s1) as (r' & s' & evs & Hrun' & _).
      rewrite Hrun'. destruct r' as [e'|]; eexists _, s'; (split; [reflexivity|]);
        rewrite ?lookup_insert_eq; (split; [discriminate | intros (_ & _ & [=])]).
    + eexists _, s1. split; [reflexivity|]. rewrite Hnote. tauto.
  - apply Hproxy, Hnote.
Qed.

(** [downloadNodeData] returns either a failure map and no error, or the
    nil map and an error: the error is that of the listing, and the fetch
    of the nodes, whatever fails in it, never makes the cycle fail. *)
Theorem downloadNodeData_report_or_error `{Oracles W} (prefix : string)
    (config : KubeAgentConfig W) (workDir : os_File) (nodeSource : NodeSource W)
    (s : State W) :
  ∃ r s',
    downloadNodeData prefix config workDir nodeSource s = (Ret r, s') ∧
    match r, snd (fst (RetryOnConflict DefaultBackoff (GetReadyNodes nodeSource) (ext s)))
    with
    | (Some _, None), None => True
    | (None, Some err), Some e => err = listingFailed e
    | _, _ => False
    end.
Proof.
  rewrite downloadNodeData_run.
  destruct (RetryOnConflict DefaultBackoff (GetReadyNodes nodeSource) (ext s))
    as [[nodes [e|]] x']; cbn [fst snd].
  - eexists _, _. split; reflexivity.
  - destruct (downloadNodeData_loop_frame prefix config workDir nodeSource
                (fst buildContainersRequest) nodes ∅ {| ext := x'; masks := masks s |})
      as (fl & s' & Hrun & _).
    rewrite Hrun. eexists _, _. split; [reflexivity | exact I].
Qed.

(** Every key of the failure map that [downloadNodeData] returns is the
    name of a node of the listing. *)
Theorem downloadNodeData_report_keys `{Oracles W} (prefix : string)
    (config : KubeAgentConfig W) (workDir : os_File) (nodeSource : NodeSource W)
    (s s' : State W) (report : gmap string error) (err : option error) (k : string) :
  downloadNodeData prefix config workDir nodeSource s = (Ret (Some report, err), s') →
  is_Some (report !! k) →
  ∃ n, n ∈ fst (fst (RetryOnConflict DefaultBackoff (GetReadyNodes nodeSource) (ext s))) ∧
       v1.Name n = k.
Proof.
  rewrite downloadNodeData_run.
  destruct (RetryOnConflict DefaultBackoff (GetReadyNodes nodeSource) (ext s))
    as [[nodes [e|]] x']; cbn [fst snd]; [discriminate|].
  destruct (downloadNodeData_loop_frame prefix config workDir nodeSource
              (fst buildContainersRequest) nodes ∅ {| ext := x'; masks := masks s |})
    as (fl & s1 & Hrun & _ & _ & Hother).
  rewrite Hrun. intros [= <- <- <-] Hk.
  destruct (decide (k ∈ map v1.Name nodes)) as [Hin|Hnin].
  - apply list_elem_of_fmap in Hin as (n & -> & Hn). eauto.
  - rewrite (Hother k Hnin), lookup_empty in Hk. destruct Hk as [? [=]].
Qed.

Lemma downloadNodeData_loop_nothing_available `{Oracles W} (prefix : string)
    (config : KubeAgentConfig W) (workDir : os_File) (nodeSource : NodeSource W)
    (containersRequest : string) (nodes : list v1.Node) (fl : gmap string error)
    (s : State W) :
  nodeRetrievalMethod config ≠ direct →
  (∀ e, availableIn s (ProxyEndpointMask config) e = false) →
  downloadNodeData_loop prefix config workDir nodeSource containersRequest nodes fl s
    = (Ret (foldl providerNote fl nodes), s).
Proof.
  intros Hmode Hnone. revert fl. induction nodes as [|n rest IH]; intros fl; [reflexivity|].
  cbn [downloadNodeData_loop foldl]. run. rewrite downloadNodeData_node_run. cbv zeta.
  destruct (decide (nodeRetrievalMethod config = direct)); [contradiction|].
  unfold proxyNodeFetch. rewrite retrieveNodeData_nothing_available by exact Hnone.
  apply IH.
Qed.

(** When the mode is not Direct and the Proxy mask marks no endpoint
    available (or is the nil map), a cycle whose listing succeeds asks
    nothing of any node and still returns without error: the failure map
    holds the provider-ID notes only, and the state is the one the
    listing left. *)
Theorem downloadNodeData_nothing_available `{Oracles W} (prefix : string)
    (config : KubeAgentConfig W) (workDir : os_File) (nodeSource : NodeSource W)
    (s : State W) (nodes : list v1.Node) (x0 : Extern W) :
  nodeRetrievalMethod config ≠ direct →
  (∀ e, availableIn s (ProxyEndpointMask config) e = false) →
  RetryOnConflict DefaultBackoff (GetReadyNodes nodeSource) (ext s) = (nodes, None, x0) →
  downloadNodeData prefix config workDir nodeSource s
    = (Ret (Some (foldl providerNote ∅ nodes), None), {| ext := x0; masks := masks s |}).
Proof.
  intros Hmode Hnone Hlist. rewrite downloadNodeData_run, Hlist.
  rewrite downloadNodeData_loop_nothing_available; [reflexivity | exact Hmode |].
  intros e. rewrite (availableIn_masks s) by reflexivity. apply Hnone.
Qed.

(** ** Connectivity prober *)

(** What a probe of a candidate leaves behind. *)
Lemma testNodeConn_post `{Oracles W} (config : KubeAgentConfig W) (client : http_Client)
    (mask : EndpointMask) (nodeStatSum containerStats cadvisorMetrics : string)
    (s : State W) :
  let r := testNodeConn config client mask nodeStatSum containerStats cadvisorMetrics s in
  (∀ l, mask ≠ Some l → masks (snd r) l = masks s l) ∧
  (∃ evs, trace (ext (snd r)) = trace (ext s) ++ evs ∧ Forall (probedBy client) evs) ∧
  (is_Some mask → ∃ b e, fst r = Ret (b, e)) ∧
  (∀ e, fst r = Ret (true, e) → e = None ∧ usableMask (snd r) mask = true).
Proof.
  cbv zeta. unfold testNodeConn, TestHTTPConnection, usableMask, availableIn.
  destruct mask as [l0|]; unfold SetAvailable; run.
  - case_probe; [| case_probe; [| destruct (RetrieveStatsContainer config); simpl;
                                   [case_probe|]]].
    all: (split; [intros l Hne; rewrite ?fn_lookup_insert_ne by congruence; reflexivity|]).
    all: (split; [eexists; split; [rewrite <- ?app_assoc; reflexivity|];
                  repeat constructor |]).
    all: (split; [intros _; eexists _, _; reflexivity|]).
    all: intros e0 [= Hb <-]; try discriminate Hb.
    all: split; [reflexivity|]; rewrite !fn_lookup_insert;
      apply andb_true_intro; split;
      [apply bool_decide_eq_true | apply orb_true_iff; rewrite !bool_decide_eq_true];
      rewrite !elem_of_set_available;
      destruct b, b0; try discriminate Hb; try destruct b1; try discriminate Hb;
      intuition congruence.
  - repeat first
      [ case_probe
      | match goal with |- context [if ?b then _ else _] => destruct b; simpl end ].
    all: (split; [intros l Hne; reflexivity|]).
    all: (split; [eexists; split; [rewrite <- ?app_assoc; reflexivity|];
                  repeat constructor |]).
    all: (split; [intros [? [=]]|]).
    all: intros e0 [=].
Qed.

Lemma ensureNodeSource_run `{Oracles W} (config : KubeAgentConfig W) (s : State W) :
  let config1 := withNodeClient config in
  ensureNodeSource config s =
    match ClientsetNodeSource_GetReadyNodes (NewClientsetNodeSource (Clientset config)) (ext s)
    with
    | (_, Some e, x1) =>
        (Ret (config1, Some (fmt_Errorf ("error retrieving nodes: " +:+ Error e))),
         {| ext := x1; masks := masks s |})
    | ([], None, x1) =>
        (Panic "index out of range [0] with length 0", {| ext := x1; masks := masks s |})
    | (firstNode :: rest, None, x1) =>
        match ClientsetNodeSource_NodeAddress firstNode with
        | (_, _, Some e) =>
            (Ret (config1,
                  Some (fmt_Errorf ("error retrieving node addresses: " +:+ Error e))),
             {| ext := x1; masks := masks s |})
        | (ip, port, None) =>
            let d := directNodeEndpoints ip port in
            let '(allow, x2) := allowDirectConnect config1 (firstNode :: rest) x1 in
            let s2 := {| ext := x2; masks := masks s |} in
            if allow : bool then
              match testNodeConn config1 nodeHTTPClient (DirectEndpointMask config1)
                      (statsSummary d) (statsContainer d) (mCAdvisor d) s2 with
              | (Ret (_, Some e), s3) => (Ret (config1, Some e), s3)
              | (Ret (true, None), s3) =>
                  (Ret (set_nodeRetrievalMethod direct config1, None), s3)
              | (Ret (false, None), s3) => proxyOutcome config1 firstNode s3
              | (Panic msg, s3) => (Panic msg, s3)
              end
            else proxyOutcome config1 firstNode s2
        end
    end.
Proof.
  cbv zeta. unfold ensureNodeSource, proxyOutcome, withNodeClient.
  unfold mbind, M_bind, bind, lift, mret, M_ret, ret, panic.
  destruct (ClientsetNodeSource_GetReadyNodes _ _) as [[nodes [e|]] x1];
    [destruct nodes; reflexivity|].
  destruct nodes as [|firstNode rest]; [reflexivity|].
  destruct (ClientsetNodeSource_NodeAddress firstNode) as [[ip port] [e|]]; [reflexivity|].
  cbn [ext masks].
  destruct (allowDirectConnect _ _ x1) as [allow x2].
  destruct allow.
  - destruct (testNodeConn _ nodeHTTPClient _ _ _ _ _) as [[[[|] [e|]]|msg] s3];
      try reflexivity.
    destruct (testNodeConn _ _ _ _ _ _ s3) as [[[[|] [e|]]|msg] s4]; reflexivity.
  - destruct (testNodeConn _ _ _ _ _ _ _) as [[[[|] [e|]]|msg] s4]; reflexivity.
Qed.

Lemma GetReadyNodes_trace {W} (cns : ClientsetNodeSource W) (x : Extern W)
    (client : http_Client) :
  ∃ evs, trace (snd (ClientsetNodeSource_GetReadyNodes cns x)) = trace x ++ EvListNodes :: evs ∧
         Forall (probedBy client) evs.
Proof.
  rewrite GetReadyNodes_run.
  assert (∀ ns : list v1.Node, Forall (probedBy client) (map notReadyLog ns)) as Hlogs.
  { intros ns. induction ns; constructor; [exact I | assumption]. }
  destruct (Nodes_List (clientSet cns) (world x)) as [[e|items] w']; cbv zeta.
  - exists []. split; [reflexivity | constructor].
  - destruct (List.filter retained items) as [|n0 ready0]; cbn [snd trace].
    + eexists. rewrite <- app_assoc. split; [reflexivity | apply Hlogs].
    + eexists. rewrite <- !app_assoc. split; [reflexivity|].
      apply Forall_app. split; [apply Hlogs|].
      destruct (negb _); repeat constructor.
Qed.

Lemma GetReadyNodes_nonempty {W} (cns : ClientsetNodeSource W) (x x' : Extern W) nodes :
  ClientsetNodeSource_GetReadyNodes cns x = (nodes, None, x') → nodes ≠ [].
Proof.
  rewrite GetReadyNodes_run.
  destruct (Nodes_List (clientSet cns) (world x)) as [[e|items] w']; cbv zeta;
    [discriminate|].
  destruct (List.filter retained items); [discriminate|].
  intros [= <- _]. discriminate.
Qed.

Lemma allowDirectConnect_loop_trace {W} (nodes : list v1.Node) (x : Extern W)
    (client : http_Client) :
  ∃ evs, trace (snd (allowDirectConnect_loop nodes x)) = trace x ++ evs ∧
         Forall (probedBy client) evs.
Proof.
  revert x. induction nodes as [|n rest IH]; intros x.
  - exists []. rewrite app_nil_r. split; [reflexivity | constructor].
  - cbn [allowDirectConnect_loop]. run. rewrite isFargateNode_run.
    destruct (fargateb n); simpl.
    + eexists. rewrite <- app_assoc. split; [reflexivity | repeat constructor].
    + apply IH.
Qed.

Lemma allowDirectConnect_trace {W} (config : KubeAgentConfig W) (nodes : list v1.Node)
    (x : Extern W) (client : http_Client) :
  ∃ evs, trace (snd (allowDirectConnect config nodes x)) = trace x ++ evs ∧
         Forall (probedBy client) evs.
Proof.
  unfold allowDirectConnect. destruct (ForceKubeProxy config).
  - run. eexists. split; [reflexivity | repeat constructor].
  - apply allowDirectConnect_loop_trace.
Qed.

Lemma proxyOutcome_post `{Oracles W} (config1 : KubeAgentConfig W) (firstNode : v1.Node)
    (s3 : State W) :
  let r := proxyOutcome config1 firstNode s3 in
  (∀ l, ProxyEndpointMask config1 ≠ Some l → masks (snd r) l = masks s3 l) ∧
  (∃ evs, trace (ext (snd r)) = trace (ext s3) ++ evs ∧
          Forall (probedBy (HTTPClient config1)) evs) ∧
  (is_Some (ProxyEndpointMask config1) → ∃ c e, fst r = Ret (c, e)) ∧
  (∀ c, fst r = Ret (c, None) →
        c = set_nodeRetrievalMethod proxy (set_NodeClient raw_Client_zero config1) ∧
        usableMask (snd r) (ProxyEndpointMask config1) = true).
Proof.
  cbv zeta. unfold proxyOutcome.
  set (p := proxyEndpoints (ClusterHostURL config1) (v1.Name firstNode)).
  destruct (testNodeConn_post config1 (HTTPClient config1) (ProxyEndpointMask config1)
              (statsSummary p) (statsContainer p) (mCAdvisor p) s3)
    as (Hframe & Htrace & Hret & Hok).
  destruct (testNodeConn _ _ _ _ _ _ s3) as [[[b [e|]]|msg] s4]; cbn [fst snd] in *.
  - destruct b; (split; [exact Hframe|]); (split; [exact Htrace|]);
      (split; [eauto|]); intros c Heq; discriminate Heq.
  - destruct b; (split; [exact Hframe|]); (split; [exact Htrace|]);
      (split; [eauto|]); intros c Heq; [|discriminate Heq].
    injection Heq as <-. split; [reflexivity | apply (Hok None eq_refl)].
  - split; [exact Hframe|]. split; [exact Htrace|]. split; [|discriminate].
    intros Hsome. destruct (Hret Hsome) as (? & ? & [=]).
Qed.

Lemma proberEvent_node {W} (config : KubeAgentConfig W) evs :
  Forall (probedBy nodeHTTPClient) evs → Forall (proberEvent config) evs.
Proof. induction 1; constructor; [left|]; assumption. Qed.

Lemma proberEvent_cluster {W} (config : KubeAgentConfig W) evs :
  Forall (probedBy (HTTPClient config)) evs → Forall (proberEvent config) evs.
Proof. induction 1; constructor; [right|]; assumption. Qed.

Lemma ensureNodeSource_post `{Oracles W} (config : KubeAgentConfig W) (s : State W) :
  let config1 := withNodeClient config in
  let r := ensureNodeSource config s in
  let nodes := fst (fst (ClientsetNodeSource_GetReadyNodes
                           (NewClientsetNodeSource (Clientset config)) (ext s))) in
  (∀ l, DirectEndpointMask config ≠ Some l → ProxyEndpointMask config ≠ Some l →
        masks (snd r) l = masks s l) ∧
  (∃ evs, trace (ext (snd r)) = trace (ext s) ++ EvListNodes :: evs ∧
          Forall (proberEvent config) evs) ∧
  (is_Some (DirectEndpointMask config) → is_Some (ProxyEndpointMask config) →
   ∃ c e, fst r = Ret (c, e)) ∧
  (∀ c, fst r = Ret (c, None) →
        (c = set_nodeRetrievalMethod direct config1 ∧
         usableMask (snd r) (DirectEndpointMask config) = true ∧
         ForceKubeProxy config = false ∧ existsb fargateb nodes = false) ∨
        (c = set_nodeRetrievalMethod proxy (set_NodeClient raw_Client_zero config1) ∧
         usableMask (snd r) (ProxyEndpointMask config) = true)).
Proof.
  cbv zeta. rewrite ensureNodeSource_run. cbv zeta.
  set (config1 := withNodeClient config).
  destruct (GetReadyNodes_trace (NewClientsetNodeSource (Clientset config)) (ext s)
              nodeHTTPClient) as (evs1 & Ht1 & Hf1).
  pose proof (GetReadyNodes_nonempty (NewClientsetNodeSource (Clientset config)) (ext s))
    as Hnonempty.
  destruct (ClientsetNodeSource_GetReadyNodes _ (ext s)) as [[nodes [e|]] x1];
    cbn [fst snd] in *.
  { destruct nodes; (split; [reflexivity|]); (split; [|split; [eauto | discriminate]]);
      exists evs1; (split; [exact Ht1|]); apply proberEvent_node; exact Hf1. }
  destruct nodes as [|firstNode rest]; [exfalso; eapply Hnonempty; reflexivity|].
  clear Hnonempty.
  destruct (ClientsetNodeSource_NodeAddress firstNode) as [[ip port] [e|]].
  { split; [reflexivity|]. split; [|split; [eauto | discriminate]].
    exists evs1. split; [exact Ht1|]. apply proberEvent_node; exact Hf1. }
  destruct (allowDirectConnect_trace config1 (firstNode :: rest) x1 nodeHTTPClient)
    as (evs2 & Ht2 & Hf2).
  pose proof (allowDirectConnect_val config1 (firstNode :: rest) x1) as Hallow.
  destruct (allowDirectConnect config1 (firstNode :: rest) x1) as [allow x2];
    cbn [fst snd] in *.
  assert (∀ s3 evs3,
            masks s3 = masks s ∨
              (∀ l, DirectEndpointMask config ≠ Some l → masks s3 l = masks s l) →
            trace (ext s3) = trace x2 ++ evs3 →
            Forall (proberEvent config) evs3 →
            let r := proxyOutcome config1 firstNode s3 in
            (∀ l, DirectEndpointMask config ≠ Some l → ProxyEndpointMask config ≠ Some l →
                  masks (snd r) l = masks s l) ∧
            (∃ evs, trace (ext (snd r)) = trace (ext s) ++ EvListNodes :: evs ∧
                    Forall (proberEvent config) evs) ∧
            (is_Some (ProxyEndpointMask config) → ∃ c e, fst r = Ret (c, e)) ∧
            (∀ c, fst r = Ret (c, None) →
                  c = set_nodeRetrievalMethod proxy (set_NodeClient raw_Client_zero config1) ∧
                  usableMask (snd r) (ProxyEndpointMask config) = true)) as Hproxy.
  { intros s3 evs3 Hm3 Ht3 Hf3. cbv zeta.
    destruct (proxyOutcome_post config1 firstNode s3) as (Hframe & (evs4 & Ht4 & Hf4) & Hret & Hok).
    split; [|split; [|split; [exact Hret | exact Hok]]].
    - intros l Hd Hp. rewrite (Hframe l Hp). destruct Hm3 as [->|Hm3]; auto.
    - exists (evs1 ++ evs2 ++ evs3 ++ evs4). split.
      + rewrite Ht4, Ht3, Ht2, Ht1. rewrite <- !app_assoc. reflexivity.
      + repeat (apply Forall_app; split); try assumption;
          first [apply proberEvent_node; assumption | apply proberEvent_cluster; assumption]. }
  destruct allow.
  - set (d := directNodeEndpoints ip port).
    destruct (testNodeConn_post config1 nodeHTTPClient (DirectEndpointMask config1)
                (statsSummary d) (statsContainer d) (mCAdvisor d)
                {| ext := x2; masks := masks s |})
      as (Hframe & (evs3 & Ht3 & Hf3) & Hret & Hok).
    symmetry in Hallow. apply negb_true_iff, orb_false_iff in Hallow as [Hforce Hfarg].
    assert (Forall (proberEvent config) (evs1 ++ evs2 ++ evs3)) as Hall.
    { repeat (apply Forall_app; split); apply proberEvent_node; assumption. }
    destruct (testNodeConn _ nodeHTTPClient _ _ _ _ _) as [[[b [e|]]|msg] s3];
      cbn [fst snd masks ext] in *.
    + destruct b; cbn [fst snd];
        (split; [intros l Hd _; apply Hframe; exact Hd|]);
        (split; [|split; [eauto | discriminate]]);
        exists (evs1 ++ evs2 ++ evs3); (split; [|exact Hall]);
        rewrite Ht3, Ht2, Ht1, <- !app_assoc; reflexivity.
    + destruct b; cbn [fst snd].
      * split; [intros l Hd _; apply Hframe; exact Hd|].
        split; [|split; [eauto|]].
        -- exists (evs1 ++ evs2 ++ evs3). split; [|exact Hall].
           rewrite Ht3, Ht2, Ht1, <- !app_assoc. reflexivity.
        -- intros c [= <-]. left. repeat split; try assumption.
           apply (Hok None eq_refl).
      * destruct (Hproxy s3 evs3 (or_intror Hframe) Ht3) as (Hp1 & Hp2 & Hp3 & Hp4).
        { apply proberEvent_node; exact Hf3. }
        split; [exact Hp1|]. split; [exact Hp2|]. split; [intros _; exact Hp3|].
        intros c Hc. right. apply Hp4, Hc.
    + split; [intros l Hd _; apply Hframe; exact Hd|].
      split; [|split; [|discriminate]].
      * exists (evs1 ++ evs2 ++ evs3). split; [|exact Hall].
        rewrite Ht3, Ht2, Ht1, <- !app_assoc. reflexivity.
      * intros Hsome _. destruct (Hret Hsome) as (? & ? & [=]).
  - destruct (Hproxy {| ext := x2; masks := masks s |} [] (or_introl eq_refl))
      as (Hp1 & Hp2 & Hp3 & Hp4); [symmetry; apply app_nil_r | constructor |].
    split; [exact Hp1|]. split; [exact Hp2|]. split; [intros _; exact Hp3|].
    intros c Hc. right. apply Hp4, Hc.
Qed.

(** When both masks of the configuration are maps, [ensureNodeSource]
    returns: no probe panics, and the first node that it indexes is
    there, since a listing without error is never empty. *)
Theorem ensureNodeSource_returns `{Oracles W} (config : KubeAgentConfig W) (s : State W) :
  is_Some (DirectEndpointMask config) →
  is_Some (ProxyEndpointMask config) →
  ∃ c e s', ensureNodeSource config s = (Ret (c, e), s').
Proof.
  intros Hd Hp.
  destruct (ensureNodeSource_post config s) as (_ & _ & Hret & _).
  destruct (Hret Hd Hp) as (c & e & Hr).
  exists c, e, (snd (ensureNodeSource config s)).
  destruct (ensureNodeSource config s) as [r s']. simpl in *. congruence.
Qed.

(** When [ensureNodeSource] returns without error it has selected Direct
    or Proxy, and the mask of the selected mode marks StatsSummary
    available, and CAdvisor or Container; in Direct mode the node client
    is the one it built, in Proxy mode the zero client; node summaries
    stay as configured. *)
Theorem ensureNodeSource_selected_mode_usable `{Oracles W} (config c : KubeAgentConfig W)
    (s s' : State W) :
  ensureNodeSource config s = (Ret (c, None), s') →
  RetrieveNodeSummaries c = RetrieveNodeSummaries config ∧
  ((nodeRetrievalMethod c = direct ∧
    NodeClient c = raw_NewClient nodeHTTPClient true (BearerToken config)
                     (CollectionRetryLimit config) ∧
    usableMask s' (DirectEndpointMask c) = true) ∨
   (nodeRetrievalMethod c = proxy ∧
    NodeClient c = raw_Client_zero ∧
    usableMask s' (ProxyEndpointMask c) = true)).
Proof.
  intros Hrun.
  destruct (ensureNodeSource_post config s) as (_ & _ & _ & Hok).
  rewrite Hrun in Hok. cbn [fst snd] in Hok.
  destruct (Hok c eq_refl) as [(-> & Hu & _)|(-> & Hu)].
  - split; [reflexivity|]. left. repeat split. exact Hu.
  - split; [reflexivity|]. right. repeat split. exact Hu.
Qed.

(** When the configuration forces kube-proxy, or a retained node of the
    listing is a Fargate node, a run of [ensureNodeSource] that ends
    without error has selected Proxy, never Direct. *)
Theorem ensureNodeSource_proxy_when_direct_disallowed `{Oracles W}
    (config c : KubeAgentConfig W) (s s' : State W) :
  ForceKubeProxy config = true ∨
    (∃ n, n ∈ fst (fst (ClientsetNodeSource_GetReadyNodes
                          (NewClientsetNodeSource (Clientset config)) (ext s))) ∧
          FargateLabelled n) →
  ensureNodeSource config s = (Ret (c, None), s') →
  nodeRetrievalMethod c = proxy.
Proof.
  intros Hcase Hrun.
  destruct (ensureNodeSource_post config s) as (_ & _ & _ & Hok).
  rewrite Hrun in Hok. cbn [fst snd] in Hok.
  destruct (Hok c eq_refl) as [(_ & _ & Hforce & Hfarg)|(-> & _)]; [|reflexivity].
  exfalso. destruct Hcase as [Hf|Hn]; [congruence|].
  apply existsb_fargateb in Hn. congruence.
Qed.

(** [ensureNodeSource] lists the nodes once, first, and after that only
    logs and probes, with the client it built or the client of the
    configuration: it never fetches data and never lists again. *)
Theorem ensureNodeSource_only_probes `{Oracles W} (config : KubeAgentConfig W)
    (s : State W) :
  ∃ evs, trace (ext (snd (ensureNodeSource config s))) = trace (ext s) ++ EvListNodes :: evs ∧
         Forall (proberEvent config) evs ∧
         Forall (λ ev, isFetch ev = false ∧ ev ≠ EvListNodes) evs.
Proof.
  destruct (ensureNodeSource_post config s) as (_ & (evs & Ht & Hf) & _).
  exists evs. split; [exact Ht|]. split; [exact Hf|].
  clear Ht. induction Hf as [|ev evs Hev _ IH]; constructor; [|exact IH].
  destruct ev; try (split; [reflexivity | discriminate]);
    destruct Hev as [[]|[]].
Qed.

(** [ensureNodeSource] changes no mask map other than the Direct and the
    Proxy mask of the configuration. *)
Theorem ensureNodeSource_other_masks `{Oracles W} (config : KubeAgentConfig W)
    (s : State W) (l : nat) :
  DirectEndpointMask config ≠ Some l →
  ProxyEndpointMask config ≠ Some l →
  masks (snd (ensureNodeSource config s)) l = masks s l.
Proof.
  intros Hd Hp.
  destruct (ensureNodeSource_post config s) as (Hframe & _). auto.
Qed.

(** When the first retained node has no address of type InternalIP,
    [ensureNodeSource] fails with the address error in the state the
    listing left: no probe is made, not even the proxy probe, which does
    not use the address; the mode and the node summaries are as they
    were. *)
Theorem ensureNodeSource_first_node_without_address `{Oracles W}
    (config : KubeAgentConfig W) (s : State W) (firstNode : v1.Node)
    (rest : list v1.Node) (x1 : Extern W) :
  ClientsetNodeSource_GetReadyNodes (NewClientsetNodeSource (Clientset config)) (ext s)
    = (firstNode :: rest, None, x1) →
  ¬ hasInternalIP firstNode →
  ∃ c,
    ensureNodeSource config s =
      (Ret (c, Some (fmt_Errorf
              ("error retrieving node addresses: Could not find internal IP address for node "
               +:+ v1.Name firstNode +:+ " "))),
       {| ext := x1; masks := masks s |}) ∧
    nodeRetrievalMethod c = nodeRetrievalMethod config ∧
    RetrieveNodeSummaries c = RetrieveNodeSummaries config.
Proof.
  intros Hlist Hno. rewrite ensureNodeSource_run, Hlist. cbv zeta.
  assert (Forall (λ a, v1.AddrType a ≠ v1.NodeInternalIP) (v1.Addresses (v1.Status firstNode)))
    as Hall.
  { apply Forall_forall. intros a Hin Hty. apply Hno. exists a.
    split; [apply list_elem_of_In; exact Hin | exact Hty]. }
  unfold ClientsetNodeSource_NodeAddress. rewrite (NodeAddress_loop_none _ Hall).
  eexists. split; [reflexivity|]. split; reflexivity.
Qed.

(** ** The caller of the fetch cycle *)

(** [retrieveNodeSummaries] returns, and leaves every mask map as it was. *)
Theorem retrieveNodeSummaries_preserves_masks `{Oracles W} `{Baselines W}
    (msExportDirectory_Name : string) (config : KubeAgentConfig W) (msd : string)
    (metricSampleDir : os_File) (nodeSource : NodeSource W) (s : State W) :
  ∃ r s',
    retrieveNodeSummaries msExportDirectory_Name config msd metricSampleDir nodeSource s
      = (Ret r, s') ∧
    masks s' = masks s.
Proof.
  unfold retrieveNodeSummaries. run. rewrite downloadNodeData_run.
  destruct (RetryOnConflict DefaultBackoff (GetReadyNodes nodeSource) (ext s))
    as [[nodes [e|]] x'].
  - eexists _, _. split; reflexivity.
  - destruct (downloadNodeData_loop_frame "stats" config metricSampleDir nodeSource
                (fst buildContainersRequest) nodes ∅ {| ext := x'; masks := masks s |})
      as (fl & s1 & Hrun & Hm & _).
    rewrite Hrun. simpl in Hm. cbn [len_failedNodeList default].
    destruct (0 <? size fl)%nat; simpl;
      repeat match goal with
      | |- context [log_Warnf_failedNodeList ?m ?x] =>
          destruct (log_Warnf_failedNodeList m x) as [[] ?]; simpl
      | |- context [fetchNodeBaselines ?a ?b ?x] =>
          destruct (fetchNodeBaselines a b x) as [[?|] ?]; simpl
      | |- context [updateNodeBaselines ?a ?b ?x] =>
          destruct (updateNodeBaselines a b x) as [[?|] ?]; simpl
      end;
      eexists _, _; (split; [reflexivity | exact Hm]).
Qed.

(** When the listing of the cycle fails, [retrieveNodeSummaries] returns
    the error of the download in the state the listing left: the
    baselines are neither fetched nor updated.  When the listing
    succeeds, the failures of the nodes do not make it fail: whatever the
    failure map holds, the error is the one of the baseline steps (the
    update is tried only after a successful fetch), and a warning is
    logged exactly when the map is not empty. *)
Theorem retrieveNodeSummaries_outcome `{Oracles W} `{Baselines W}
    (msExportDirectory_Name : string) (config : KubeAgentConfig W) (msd : string)
    (metricSampleDir : os_File) (nodeSource : NodeSource W) (s : State W) :
  let run :=
    retrieveNodeSummaries msExportDirectory_Name config msd metricSampleDir nodeSource s in
  (∀ nodes e x',
     RetryOnConflict DefaultBackoff (GetReadyNodes nodeSource) (ext s) = (nodes, Some e, x') →
     run = (Ret (Some (fmt_Errorf ("error downloading node metrics: " +:+
                                   Error (listingFailed e)))),
            {| ext := x'; masks := masks s |})) ∧
  (∀ report s1,
     downloadNodeData "stats" config metricSampleDir nodeSource s
       = (Ret (Some report, None), s1) →
     let x1 := if decide (report = ∅) then ext s1
               else snd (log_Warnf_failedNodeList report (ext s1)) in
     let '(fetched, x2) := fetchNodeBaselines msd msExportDirectory_Name x1 in
     match fetched with
     | Some e =>
         run = (Ret (Some (fmt_Errorf ("error fetching node baseline files: " +:+ Error e))),
                {| ext := x2; masks := masks s1 |})
     | None =>
         let '(updated, x3) := updateNodeBaselines msd msExportDirectory_Name x2 in
         run = (Ret (match updated with
                     | Some e => Some (fmt_Errorf
                         ("error updating node baseline files: " +:+ Error e))
                     | None => None
                     end),
                {| ext := x3; masks := masks s1 |})
     end).
Proof.
  cbv zeta. split.
  - intros nodes e x' Hlist. unfold retrieveNodeSummaries. run.
    rewrite downloadNodeData_run, Hlist. reflexivity.
  - intros report s1 Hrun. unfold retrieveNodeSummaries. run. rewrite Hrun. simpl.
    destruct (decide (report = ∅)) as [->|Hne].
    + rewrite map_size_empty. simpl.
      destruct (fetchNodeBaselines _ _ _) as [[e|] x2]; [reflexivity|].
      destruct (updateNodeBaselines _ _ _) as [[e|] x3]; reflexivity.
    + assert ((0 <? size report)%nat = true) as ->.
      { apply Nat.ltb_lt. destruct (size report) eqn:Hs; [|lia].
        apply map_size_empty_iff in Hs. contradiction. }
      simpl. destruct (log_Warnf_failedNodeList report (ext s1)) as [[] x1]. simpl.
      destruct (fetchNodeBaselines _ _ _) as [[e|] x2]; [reflexivity|].
      destruct (updateNodeBaselines _ _ _) as [[e|] x3]; reflexivity.
Qed.

(** In Direct mode, for a node that is not a Fargate node, a direct fetch
    without error ends the work on the node: the body of the loop returns
    in the state the direct fetch left, so no proxy request is made, and
    the failure map gains at most the provider-ID note. *)
Theorem downloadNodeData_node_direct_success `{Oracles W} (prefix : string)
    (config : KubeAgentConfig W) (workDir : os_File) (nodeSource : NodeSource W)
    (containersRequest : string) (fl : gmap string error) (n : v1.Node)
    (s s1 : State W) :
  let nd := fetchContext prefix config workDir containersRequest n in
  nodeRetrievalMethod config = direct →
  ¬ FargateLabelled n →
  directNodeFetch nodeSource config n nd s = (Ret None, s1) →
  downloadNodeData_node prefix config workDir nodeSource containersRequest fl n s
    = (Ret (providerNote fl n), s1) ∧
  (v1.Spec_ProviderID n ≠ EmptyString → providerNote fl n = fl).
Proof.
  intros nd Hmode Hnf Hdirect. split.
  - rewrite downloadNodeData_node_run. cbv zeta. fold nd.
    destruct (decide (nodeRetrievalMethod config = direct)); [|contradiction].
    rewrite (fargateb_false n Hnf), isFargateNode_run, (fargateb_false n Hnf). cbn [snd].
    replace {| ext := ext s; masks := masks s |} with s by (destruct s; reflexivity).
    rewrite Hdirect. reflexivity.
  - intros Hpid. unfold providerNote.
    destruct (String.eqb_spec (v1.Spec_ProviderID n) EmptyString); [contradiction|].
    reflexivity.
Qed.

(** The loop over a listing split in two is the loop over the first part
    followed by the loop over the second: the first part always returns
    a failure map, whatever failed in it, and the second part runs from
    there. *)
Theorem downloadNodeData_loop_continues `{Oracles W} (prefix : string)
    (config : KubeAgentConfig W) (workDir : os_File) (nodeSource : NodeSource W)
    (containersRequest : string) (pre post : list v1.Node) (fl : gmap string error)
    (s : State W) :
  ∃ fl1 s1,
    downloadNodeData_loop prefix config workDir nodeSource containersRequest pre fl s
      = (Ret fl1, s1) ∧
    downloadNodeData_loop prefix config workDir nodeSource containersRequest (pre ++ post) fl s
      = downloadNodeData_loop prefix config workDir nodeSource containersRequest post fl1 s1.
Proof.
  destruct (downloadNodeData_loop_frame prefix config workDir nodeSource containersRequest
              pre fl s) as (fl1 & s1 & Hrun & _).
  exists fl1, s1. split; [exact Hrun|].
  rewrite downloadNodeData_loop_app, Hrun. reflexivity.
Qed.

(** ** Closed instances of the further properties *)

Lemma GetReadyNodes_logs_witness :
  let cns := NewClientsetNodeSource (Fixture.listing [Fixture.nodeA; Fixture.nodeN]) in
  let x := {| world := tt; trace := [] |} in
  let discarded := List.filter (λ n, negb (retained n)) [Fixture.nodeA; Fixture.nodeN] in
  trace (snd (ClientsetNodeSource_GetReadyNodes cns x)) =
    trace x ++ EvListNodes :: map notReadyLog discarded ++
    match discarded with
    | [] => []
    | _ :: _ => [EvLog LogSomeNodesNotReady]
    end.
Proof.
  cbv zeta.
  apply (GetReadyNodes_logs
           (NewClientsetNodeSource (Fixture.listing [Fixture.nodeA; Fixture.nodeN]))
           {| world := tt; trace := [] |} [Fixture.nodeA; Fixture.nodeN] tt eq_refl).
  vm_compute. discriminate.
Defined.

Lemma directNodeFetch_requests_witness :
  let config := Fixture.config Fixture.cluster direct true in
  let s := Fixture.state Fixture.allEndpoints Fixture.allEndpoints in
  let nd := fetchContext "stats" config "samples" (fst buildContainersRequest)
              Fixture.nodeA in
  ∃ r s' attempted,
    @directNodeFetch unit Fixture.directToBFails
      (ClientsetNodeSource_NodeSource (NewClientsetNodeSource (Fixture.listing Fixture.cluster)))
      config Fixture.nodeA nd s = (Ret r, s') ∧
    attempted `prefix_of` List.filter (availableIn s (DirectEndpointMask config)) fetchOrder ∧
    trace (ext s') = trace (ext s) ++
      attemptEvents nd (NodeClient config) (directNodeEndpoints "10.0.0.1" 10250) attempted ∧
    masks s' = masks s ∧
    (r = None →
     attempted = List.filter (availableIn s (DirectEndpointMask config)) fetchOrder).
Proof.
  cbv zeta.
  apply (@directNodeFetch_requests unit Fixture.directToBFails
           (Fixture.listing Fixture.cluster) (Fixture.config Fixture.cluster direct true)
           Fixture.nodeA _ _ "10.0.0.1" 10250 eq_refl).
Defined.

Lemma downloadNodeData_node_proxy_only_witness :
  let config := Fixture.config Fixture.cluster direct true in
  let s := Fixture.state Fixture.allEndpoints Fixture.allEndpoints in
  let nd := fetchContext "stats" config "samples" (fst buildContainersRequest)
              Fixture.nodeC in
  ∃ fl' s' attempted,
    (∀ nodeSource' : NodeSource unit,
       @downloadNodeData_node unit Fixture.directToBFails "stats" config "samples"
         nodeSource' (fst buildContainersRequest) ∅ Fixture.nodeC s = (Ret fl', s')) ∧
    attempted `prefix_of` List.filter (availableIn s (ProxyEndpointMask config)) fetchOrder ∧
    trace (ext s') = trace (ext s) ++ [EvLog (LogFargateNodeFound "node-c")] ++
      attemptEvents nd (InClusterClient config) (proxyEndpoints "https://api" "node-c")
        attempted.
Proof.
  cbv zeta.
  apply (@downloadNodeData_node_proxy_only unit Fixture.directToBFails "stats"
           (Fixture.config Fixture.cluster direct true) "samples" Fixture.clusterSource
           (fst buildContainersRequest) ∅ Fixture.nodeC
           (Fixture.state Fixture.allEndpoints Fixture.allEndpoints)).
  right. vm_compute. reflexivity.
Defined.

Lemma downloadNodeData_node_proxy_note_overwrites_witness :
  let config := Fixture.config Fixture.cluster direct true in
  let s := Fixture.state Fixture.allEndpoints Fixture.allEndpoints in
  ∃ fl' s2,
    @downloadNodeData_node unit Fixture.cadvisorFails "stats" config "samples"
      Fixture.clusterSource (fst buildContainersRequest) ∅ Fixture.nodeA s = (Ret fl', s2) ∧
    fl' !! "node-a" = Some (proxyFailedNote Fixture.refused).
Proof.
  cbv zeta.
  pose (config := Fixture.config Fixture.cluster direct true).
  pose (s := Fixture.state Fixture.allEndpoints Fixture.allEndpoints).
  pose (nd := fetchContext "stats" config "samples" (fst buildContainersRequest)
                Fixture.nodeA).
  pose (s1 := snd (@directNodeFetch unit Fixture.cadvisorFails Fixture.clusterSource
                     config Fixture.nodeA nd s)).
  pose (s2 := snd (@proxyNodeFetch unit Fixture.cadvisorFails nd config s1)).
  destruct (@downloadNodeData_node_proxy_note_overwrites unit Fixture.cadvisorFails "stats"
              config "samples" Fixture.clusterSource (fst buildContainersRequest) ∅
              Fixture.nodeA s s1 s2 Fixture.refused Fixture.refused)
    as (fl' & Hrun & Hnote & _).
  - reflexivity.
  - vm_compute. discriminate.
  - vm_compute. reflexivity.
  - vm_compute. reflexivity.
  - exists fl', s2. split; assumption.
Defined.

Lemma downloadNodeData_report_keys_witness :
  let config := Fixture.config Fixture.cluster direct true in
  let s := Fixture.state Fixture.allEndpoints Fixture.allEndpoints in
  ∃ n, n ∈ fst (fst (RetryOnConflict DefaultBackoff (GetReadyNodes Fixture.clusterSource)
                       (ext s))) ∧
       v1.Name n = "node-b".
Proof.
  cbv zeta.
  pose (config := Fixture.config Fixture.cluster direct true).
  pose (s := Fixture.state Fixture.allEndpoints Fixture.allEndpoints).
  pose (s' := snd (@downloadNodeData unit Fixture.directToBFails "stats" config "samples"
                     Fixture.clusterSource s)).
  apply (@downloadNodeData_report_keys unit Fixture.directToBFails "stats" config "samples"
           Fixture.clusterSource s s'
           {[ "node-b" := directFailedNote Fixture.refused ]} None "node-b").
  - vm_compute. reflexivity.
  - rewrite lookup_singleton_eq. eexists. reflexivity.
Defined.

Lemma downloadNodeData_nothing_available_witness :
  let config := Fixture.config Fixture.cluster proxy true in
  let s := Fixture.state Fixture.allEndpoints ∅ in
  @downloadNodeData unit Fixture.directToBFails "stats" config "samples"
    Fixture.clusterSource s
    = (Ret (Some (foldl providerNote ∅ Fixture.cluster), None),
       {| ext := Examples.listed; masks := masks s |}).
Proof.
  cbv zeta.
  apply (@downloadNodeData_nothing_available unit Fixture.directToBFails "stats"
           (Fixture.config Fixture.cluster proxy true) "samples" Fixture.clusterSource
           (Fixture.state Fixture.allEndpoints ∅) Fixture.cluster Examples.listed).
  - discriminate.
  - intros []; vm_compute; reflexivity.
  - vm_compute. reflexivity.
Defined.

Lemma ensureNodeSource_returns_witness :
  ∃ c e s',
    @ensureNodeSource unit Fixture.nothingReachable
      (Fixture.config Fixture.cluster proxy true) (Fixture.state ∅ ∅) = (Ret (c, e), s').
Proof.
  apply (@ensureNodeSource_returns unit Fixture.nothingReachable
           (Fixture.config Fixture.cluster proxy true) (Fixture.state ∅ ∅)).
  - eexists. reflexivity.
  - eexists. reflexivity.
Defined.

Lemma ensureNodeSource_selected_mode_usable_witness :
  let config := Fixture.config [Fixture.nodeA] proxy true in
  let s := Fixture.state ∅ ∅ in
  let c := set_nodeRetrievalMethod direct (withNodeClient config) in
  let s' := snd (@ensureNodeSource unit Fixture.directToBFails config s) in
  RetrieveNodeSummaries c = RetrieveNodeSummaries config ∧
  ((nodeRetrievalMethod c = direct ∧
    NodeClient c = raw_NewClient nodeHTTPClient true (BearerToken config)
                     (CollectionRetryLimit config) ∧
    usableMask s' (DirectEndpointMask c) = true) ∨
   (nodeRetrievalMethod c = proxy ∧
    NodeClient c = raw_Client_zero ∧
    usableMask s' (ProxyEndpointMask c) = true)).
Proof.
  cbv zeta.
  apply (@ensureNodeSource_selected_mode_usable unit Fixture.directToBFails
           (Fixture.config [Fixture.nodeA] proxy true)
           (set_nodeRetrievalMethod direct
              (withNodeClient (Fixture.config [Fixture.nodeA] proxy true)))
           (Fixture.state ∅ ∅)).
  vm_compute. reflexivity.
Defined.

Lemma ensureNodeSource_proxy_when_direct_disallowed_witness :
  let config := Fixture.config Fixture.cluster direct true in
  nodeRetrievalMethod
    (set_nodeRetrievalMethod proxy (set_NodeClient raw_Client_zero (withNodeClient config)))
  = proxy.
Proof.
  cbv zeta.
  pose (config := Fixture.config Fixture.cluster direct true).
  pose (s := Fixture.state ∅ ∅).
  apply (@ensureNodeSource_proxy_when_direct_disallowed unit Fixture.directToBFails config
           (set_nodeRetrievalMethod proxy
              (set_NodeClient raw_Client_zero (withNodeClient config)))
           s (snd (@ensureNodeSource unit Fixture.directToBFails config s))).
  - right. exists Fixture.nodeC. split; [|vm_compute; reflexivity].
    assert (fst (fst (ClientsetNodeSource_GetReadyNodes
                        (NewClientsetNodeSource (Clientset config)) (ext s)))
            = Fixture.cluster) as -> by (vm_compute; reflexivity).
    unfold Fixture.cluster. repeat constructor.
  - vm_compute. reflexivity.
Defined.

Lemma ensureNodeSource_other_masks_witness :
  let config := Fixture.config Fixture.cluster proxy true in
  let s := Fixture.state ∅ ∅ in
  masks (snd (@ensureNodeSource unit Fixture.directToBFails config s)) 5%nat = masks s 5%nat.
Proof.
  cbv zeta.
  apply (@ensureNodeSource_other_masks unit Fixture.directToBFails
           (Fixture.config Fixture.cluster proxy true) (Fixture.state ∅ ∅) 5%nat);
    discriminate.
Defined.

Lemma ensureNodeSource_first_node_without_address_witness :
  let config := Fixture.config [Fixture.nodeE] proxy true in
  let s := Fixture.state ∅ ∅ in
  ∃ c,
    @ensureNodeSource unit Fixture.directToBFails config s =
      (Ret (c, Some (fmt_Errorf
              ("error retrieving node addresses: Could not find internal IP address for node "
               +:+ "node-e" +:+ " "))),
       {| ext := Examples.listed; masks := masks s |}) ∧
    nodeRetrievalMethod c = nodeRetrievalMethod config ∧
    RetrieveNodeSummaries c = RetrieveNodeSummaries config.
Proof.
  cbv zeta.
  apply (@ensureNodeSource_first_node_without_address unit Fixture.directToBFails
           (Fixture.config [Fixture.nodeE] proxy true) (Fixture.state ∅ ∅)
           Fixture.nodeE [] Examples.listed).
  - vm_compute. reflexivity.
  - intros (a & Hin & Hty). cbn in Hin.
    apply list_elem_of_singleton in Hin. subst a. discriminate Hty.
Defined.

Lemma retrieveNodeSummaries_outcome_witness :
  let config := Fixture.config [Fixture.nodeN] proxy true in
  let s := Fixture.state ∅ ∅ in
  let zero := fmt_Errorf "there were 0 nodes in a ready state" in
  @retrieveNodeSummaries unit Fixture.directToBFails Examples.baselinesOk "export" config
    "sample" "samples" (Examples.source [Fixture.nodeN]) s
  = (Ret (Some (fmt_Errorf ("error downloading node metrics: " +:+
                            Error (listingFailed zero)))),
     {| ext := {| world := tt;
                  trace := [EvListNodes; notReadyLog Fixture.nodeN] |};
        masks := masks s |}).
Proof.
  cbv zeta.
  apply (proj1 (@retrieveNodeSummaries_outcome unit Fixture.directToBFails
                  Examples.baselinesOk "export"
                  (Fixture.config [Fixture.nodeN] proxy true) "sample" "samples"
                  (Examples.source [Fixture.nodeN]) (Fixture.state ∅ ∅)) []).
  vm_compute. reflexivity.
Defined.

Lemma downloadNodeData_node_direct_success_witness :
  let config := Fixture.config Fixture.cluster direct true in
  let s := Fixture.state Fixture.allEndpoints Fixture.allEndpoints in
  let nd := fetchContext "stats" config "samples" (fst buildContainersRequest)
              Fixture.nodeA in
  let s1 := snd (@directNodeFetch unit Fixture.directToBFails Fixture.clusterSource config
                   Fixture.nodeA nd s) in
  @downloadNodeData_node unit Fixture.directToBFails "stats" config "samples"
    Fixture.clusterSource (fst buildContainersRequest) ∅ Fixture.nodeA s
    = (Ret (providerNote ∅ Fixture.nodeA), s1).
Proof.
  cbv zeta.
  apply (@downloadNodeData_node_direct_success unit Fixture.directToBFails "stats"
           (Fixture.config Fixture.cluster direct true) "samples" Fixture.clusterSource
           (fst buildContainersRequest) ∅ Fixture.nodeA
           (Fixture.state Fixture.allEndpoints Fixture.allEndpoints)).
  - reflexivity.
  - vm_compute. discriminate.
  - vm_compute. reflexivity.
Defined.
